(** * Machine-Fault-Detector: the dashboard script [static/script.js]

    A shallow embedding of the browser script that drives the dashboard
    (sensor ranges, the validation and submission handler [onPredict],
    [updateBarChart], [loadLogsChart], [setDonutCenter] and the chart
    set-up done by the [load] listener), together with the properties the
    specification states about it.

    - JavaScript Numbers are IEEE 754 binary64 values: they are Rocq's
      primitive [float]s, whose operations are specified against
      [SpecFloat].  Strings are sequences of code units below 256.
    - The script keeps its state in the page (form inputs, text elements,
      the three Chart.js objects) and talks to the server with [fetch]; both
      are threaded through a small state-and-exception monad, in which the
      functions of the script read as they do in the source.
    - The server is a parameter: a function from requests to what [fetch]
      and [res.json()] yield for them.
    - What the server sends is what [JSON.parse] produces: no value of it
      is callable, so the conversion of an object to a string or a Number
      throws exactly when the object has an own property [toString], and
      that of an array when the conversion of an element throws.
    - A handler runs to completion: what it awaits is answered before any
      other handler runs.  [loadLogsChart()] is called without [await]; its
      whole body is inside its own [try], so nothing it throws reaches the
      caller, and running it in sequence leaves the same page. *)

From Stdlib Require Import ZArith List String Ascii Bool Lia Floats DecimalString.
From stdpp Require Import base option list gmap strings.

Set Warnings "-inexact-float,-register-all".
Local Open Scope string_scope.
Local Open Scope Z_scope.

(** ** The fragment of ECMAScript the script relies on *)
Module JS.

(** *** Numbers *)

(** The Number with mathematical value [n]; exact whenever [|n| <= 2^53]. *)
Definition of_Z (n : Z) : float :=
  SF2Prim (binary_normalize prec emax n 0 false).

(** The Number closest to [n / d] (ties to even), for [0 < d]. *)
Definition of_ratio (n d : Z) : float :=
  match n, d with
  | Zpos p, Zpos q =>
      SF2Prim (SFdiv prec emax (S754_finite false p 0) (S754_finite false q 0))
  | Zneg p, Zpos q =>
      SF2Prim (SFdiv prec emax (S754_finite true p 0) (S754_finite false q 0))
  | _, _ => zero
  end.

(** [Math.round]: the integer closest to [x], ties towards +Infinity;
    [-0] for [-0.5 <= x < 0] (and for [-0]), NaN and the infinities are
    returned as they are.  A finite [x] is [±m * 2^e]; with [e < 0] the
    result is [floor (x + 1/2)], computed on integers. *)
Definition Math_round (x : float) : float :=
  match Prim2SF x with
  | S754_finite s m e =>
      if 0 <=? e then x
      else
        let n := (2 * (if s then Z.neg m else Z.pos m) + 2 ^ (- e)) / 2 ^ (1 - e) in
        if n =? 0 then (if s then neg_zero else zero) else of_Z n
  | _ => x
  end.

(** *** Characters and digits *)

Definition digit_of (base : Z) (c : ascii) : option Z :=
  let n := Z.of_N (N_of_ascii c) in
  let d := if (48 <=? n) && (n <=? 57) then n - 48
           else if (97 <=? n) && (n <=? 102) then n - 87
           else if (65 <=? n) && (n <=? 70) then n - 55
           else base in
  if d <? base then Some d else None.

(** The longest prefix of digits in [base]: its value, its length and
    what follows it. *)
Fixpoint digits (base : Z) (acc : Z) (len : Z) (s : list ascii)
  : Z * Z * list ascii :=
  match s with
  | c :: s' =>
      match digit_of base c with
      | Some d => digits base (base * acc + d) (len + 1) s'
      | None => (acc, len, s)
      end
  | [] => (acc, len, s)
  end.

(** White space and line terminators among the code units below 256. *)
Definition is_space (c : ascii) : bool :=
  let n := Z.of_N (N_of_ascii c) in
  ((9 <=? n) && (n <=? 13)) || (n =? 32) || (n =? 160).

Fixpoint trim_left (s : list ascii) : list ascii :=
  match s with
  | c :: s' => if is_space c then trim_left s' else s
  | [] => []
  end.

Definition trim (s : list ascii) : list ascii :=
  rev (trim_left (rev (trim_left s))).

(** *** StringToNumber (the coercion [Number(string)]) *)

(** [sign * n * 10^t] as a Number. *)
Definition of_decimal (neg : bool) (n t : Z) : float :=
  if n =? 0 then (if neg then neg_zero else zero)
  else
    let n := if neg then - n else n in
    if 0 <=? t then of_Z (n * 10 ^ t) else of_ratio n (10 ^ (- t)).

(** ExponentPart, optional; [None] when what is left is not one. *)
Definition exponent_part (s : list ascii) : option Z :=
  match s with
  | [] => Some 0
  | c :: s' =>
      if (Ascii.eqb c "e" || Ascii.eqb c "E")%bool then
        let '(neg, s'') :=
          match s' with
          | c' :: r => if Ascii.eqb c' "-" then (true, r)
                       else if Ascii.eqb c' "+" then (false, r)
                       else (false, s')
          | [] => (false, s')
          end in
        match digits 10 0 0 s'' with
        | (e, len, []) => if 0 <? len then Some (if neg then - e else e) else None
        | _ => None
        end
      else None
  end.

(** StrUnsignedDecimalLiteral. *)
Definition unsigned_decimal (neg : bool) (s : list ascii) : float :=
  if String.eqb (string_of_list_ascii s) "Infinity"
  then (if neg then neg_infinity else infinity)
  else
    let '(i, ilen, r) := digits 10 0 0 s in
    let '(n, flen, r') :=
      match r with
      | c :: r1 =>
          if Ascii.eqb c "." then
            let '(n, len, r2) := digits 10 i ilen r1 in (n, len - ilen, r2)
          else (i, 0, r)
      | [] => (i, 0, r)
      end in
    if ilen + flen =? 0 then nan
    else match exponent_part r' with
         | Some e => of_decimal neg n (e - flen)
         | None => nan
         end.

(** NonDecimalIntegerLiteral: [0x], [0o] and [0b] forms, unsigned. *)
Definition non_decimal (s : list ascii) : option float :=
  match s with
  | z :: p :: r =>
      if Ascii.eqb z "0" then
        let base := if (Ascii.eqb p "x" || Ascii.eqb p "X")%bool then Some 16
                    else if (Ascii.eqb p "o" || Ascii.eqb p "O")%bool then Some 8
                    else if (Ascii.eqb p "b" || Ascii.eqb p "B")%bool then Some 2
                    else None in
        match base with
        | Some b =>
            match digits b 0 0 r with
            | (n, len, []) => Some (if 0 <? len then of_Z n else nan)
            | _ => Some nan
            end
        | None => None
        end
      else None
  | _ => None
  end.

Definition StringToNumber (str : string) : float :=
  match trim (list_ascii_of_string str) with
  | [] => zero
  | (c :: r) as s =>
      match non_decimal s with
      | Some x => x
      | None =>
          if Ascii.eqb c "-" then unsigned_decimal true r
          else if Ascii.eqb c "+" then unsigned_decimal false r
          else unsigned_decimal false s
      end
  end.

(** *** Number::toString (radix 10) *)

(** [s * 10^t] against [c * 2^q], on integers. *)
Definition cmp_scaled (s t c q : Z) : comparison :=
  s * 10 ^ Z.max t 0 * 2 ^ Z.max (- q) 0 ?= c * 10 ^ Z.max (- t) 0 * 2 ^ Z.max q 0.

(** The least [n], from [n0] on, with [m * 2^e < 10^n]. *)
Fixpoint magnitude (fuel : nat) (n0 : Z) (m e : Z) : Z :=
  match fuel with
  | O => n0
  | S fuel' =>
      match cmp_scaled 1 n0 m e with
      | Gt => n0
      | _ => magnitude fuel' (n0 + 1) m e
      end
  end.

(** An integer below the decimal logarithm of [m * 2^e], and close to it:
    [m * 2^e] is at least [2^k] for [k] the position of its leading bit, and
    1233 / 4096 approximates the decimal logarithm of 2. *)
Definition log10_below (m e : Z) : Z :=
  (Zdigits2 m + e - 1) * 1233 / 4096 - 1.

(** Does [s * 10^t] read back as the Number [m * 2^e]?  The Numbers next
    to it are one unit of [2^e] away, except below a power of two, where
    the gap is half of that; a decimal half-way to a neighbour reads back
    as the one with the even significand. *)
Definition reads_back (m e s t : Z) : bool :=
  let below := if (m =? 2 ^ 52) && (-1074 <? e) then 1 else 2 in
  let lo := cmp_scaled s t (4 * m - below) (e - 2) in
  let hi := cmp_scaled s t (4 * m + 2) (e - 2) in
  match lo, hi with
  | Gt, Lt => true
  | Eq, Lt | Gt, Eq => Z.even m
  | _, _ => false
  end.

(** The [k]-digit decimals around [m * 2^e] that read back as it, the
    closest one first, each with the position [n] of its decimal point:
    [s1 * 10^(n-k)] just below and [s1 + 1] just above, which is
    [10^(k-1) * 10^(n+1-k)] when [s1 + 1] reaches [10^k]. *)
Definition candidates (m e k n : Z) : list (Z * Z) :=
  let t := n - k in
  let s1 := (m * 2 ^ Z.max e 0 * 10 ^ Z.max (- t) 0)
            / (2 ^ Z.max (- e) 0 * 10 ^ Z.max t 0) in
  let s2 := s1 + 1 in
  let ok s := (10 ^ (k - 1) <=? s) && (s <=? 10 ^ k) && reads_back m e s t in
  let ordered :=
    match cmp_scaled (2 * s1 + 1) t (2 * m) e with
    | Gt => [s1; s2]
    | Lt => [s2; s1]
    | Eq => if Z.even s1 then [s1; s2] else [s2; s1]
    end in
  map (fun s => if s =? 10 ^ k then (10 ^ (k - 1), n + 1) else (s, n))
      (List.filter ok ordered).

(** The digits [s], their number [k] and the position [n] of the decimal
    point, with [k] as small as possible; [n0] is the magnitude of
    [m * 2^e]. *)
Fixpoint shortest (fuel : nat) (m e k n0 : Z) : Z * Z * Z :=
  match fuel with
  | O => (m, k, n0)
  | S fuel' =>
      match candidates m e k n0 with
      | (s, n) :: _ => (s, k, n)
      | [] => shortest fuel' m e (k + 1) n0
      end
  end.

Definition decimal (n : Z) : string :=
  NilZero.string_of_uint (N.to_uint (Z.to_N n)).

Fixpoint zeros (n : nat) : string :=
  match n with O => "" | S n' => String "0" (zeros n') end.

Definition format (s k n : Z) : string :=
  let ds := decimal s in
  let exponent :=
    (if 0 <? n - 1 then "e+" else "e-") +:+ decimal (Z.abs (n - 1)) in
  if (k <=? n) && (n <=? 21) then ds +:+ zeros (Z.to_nat (n - k))
  else if (0 <? n) && (n <=? 21) then
    substring 0 (Z.to_nat n) ds +:+ "." +:+ substring (Z.to_nat n) (Z.to_nat (k - n)) ds
  else if (-6 <? n) && (n <=? 0) then "0." +:+ zeros (Z.to_nat (- n)) +:+ ds
  else if k =? 1 then ds +:+ exponent
  else substring 0 1 ds +:+ "." +:+ substring 1 (Z.to_nat (k - 1)) ds +:+ exponent.

Definition Number_toString (x : float) : string :=
  match Prim2SF x with
  | S754_nan => "NaN"
  | S754_zero _ => "0"
  | S754_infinity s => if s then "-Infinity" else "Infinity"
  | S754_finite sg m e =>
      let n0 := magnitude 8 (log10_below (Z.pos m) e) (Z.pos m) e in
      let '(s, k, n) := shortest 17 (Z.pos m) e 1 n0 in
      (if sg then "-" else "") +:+ format s k n
  end.

(** *** Values *)

(** The values the script handles: what [JSON.parse] produces, and
    [undefined] for a property that is not there.  An object is the list
    of its own properties, in insertion order. *)
Inductive value :=
| VUndefined
| VNull
| VBool (b : bool)
| VNum (x : float)
| VStr (s : string)
| VArr (elems : list value)
| VObj (props : list (string * value)).

(** Exceptions: an error name and its message. *)
Record exn := Error { error_name : string; error_message : string }.

Definition TypeError (msg : string) : exn := Error "TypeError" msg.

(** [Error.prototype.toString]: the name, a colon and the message, or
    the one of the two that is not empty. *)
Definition exn_toString (e : exn) : string :=
  if String.eqb (error_name e) "" then error_message e
  else if String.eqb (error_message e) "" then error_name e
  else error_name e +:+ ": " +:+ error_message e.

Definition ToBoolean (v : value) : bool :=
  match v with
  | VUndefined | VNull => false
  | VBool b => b
  | VNum x => negb (is_zero x || is_nan x)
  | VStr s => negb (String.eqb s "")
  | VArr _ | VObj _ => true
  end.

(** [ToPrimitive] succeeds on [v].  A primitive is its own primitive.
    For an object, [OrdinaryToPrimitive] calls [valueOf] and [toString],
    in the order of the hint, and keeps the first result that is a
    primitive.  An object of [JSON.parse] inherits both from
    [Object.prototype], where [valueOf] returns the object itself and
    [toString] the string "[object Object]"; an own property of either name
    is never callable and hides the inherited method.  So the conversion
    fails exactly when the object has an own property [toString].  An array
    inherits [Array.prototype.toString], which joins the strings of the
    elements: it fails when the conversion of an element fails. *)
Fixpoint convertible (v : value) : bool :=
  match v with
  | VArr elems => forallb convertible elems
  | VObj props => negb (existsb (fun kv => String.eqb (fst kv) "toString") props)
  | _ => true
  end.

(** The TypeError of a failed [ToPrimitive]. *)
Definition not_convertible : exn :=
  TypeError "Cannot convert object to primitive value".

(** [ToString] of a value that is [convertible]: an array joins its
    elements with commas, [null] and [undefined] elements giving the empty
    string.  On the other values the conversion throws [not_convertible]
    and this string is not used. *)
Fixpoint ToString (v : value) : string :=
  match v with
  | VUndefined => "undefined"
  | VNull => "null"
  | VBool b => if b then "true" else "false"
  | VNum x => Number_toString x
  | VStr s => s
  | VArr elems =>
      (fix join (l : list value) : string :=
         let item e := match e with
                       | VUndefined | VNull => ""
                       | _ => ToString e
                       end in
         match l with
         | [] => ""
         | [e] => item e
         | e :: l' => item e +:+ "," +:+ join l'
         end) elems
  | VObj _ => "[object Object]"
  end.

(** [ToNumber] of a value that is [convertible]; arrays and objects go
    through their string. *)
Definition ToNumber (v : value) : float :=
  match v with
  | VUndefined => nan
  | VNull => zero
  | VBool b => if b then one else zero
  | VNum x => x
  | VStr s => StringToNumber s
  | VArr _ | VObj _ => StringToNumber (ToString v)
  end.

(** [a || b]. *)
Definition or (a b : value) : value := if ToBoolean a then a else b.

(** [v < x] and [v > x] against a Number [x], for a [convertible] value
    [v]: the comparison is numeric. *)
Definition lt (v : value) (x : float) : bool := (ToNumber v <? x)%float.
Definition gt (v : value) (x : float) : bool := (x <? ToNumber v)%float.

(** [obj[key]] on the own properties of an object. *)
Fixpoint lookup_prop (key : string) (props : list (string * value)) : value :=
  match props with
  | [] => VUndefined
  | (k, v) :: props' => if String.eqb k key then v else lookup_prop key props'
  end.

(** [v.name] for a property [name] that no prototype defines (all the
    names the script reads from server data are such): a TypeError on
    [null] and [undefined], [undefined] on the other primitives and on
    arrays. *)
Definition get (v : value) (name : string) : exn + value :=
  match v with
  | VUndefined =>
      inl (TypeError ("Cannot read properties of undefined (reading '" +:+ name +:+ "')"))
  | VNull =>
      inl (TypeError ("Cannot read properties of null (reading '" +:+ name +:+ "')"))
  | VObj props => inr (lookup_prop name props)
  | _ => inr VUndefined
  end.

End JS.

(** ** The page: what the script reads and writes *)

(** A form field: its text and the [style.border] the script sets. *)
Record input := Input { input_value : string; style_border : string }.

(** A Chart.js object, reduced to the parts of [chart.data] the script
    assigns: [data.labels], [data.datasets[0].data] and
    [data.datasets[0].backgroundColor].  [chart.update()] redraws from
    them and changes none.  The donut and the bars are drawn from fixed
    labels and from Numbers.  The line chart takes its labels from the
    server; there [update()] is the last statement of the [try] of
    [loadLogsChart], so a failure of Chart.js on labels that are not strings
    would add a console line and change nothing else.  That line is not
    modelled. *)
Record chart := Chart {
  labels : list JS.value;
  data : list JS.value;
  backgroundColor : list string
}.

(** A request handed to [fetch].  The body of a POST is
    [JSON.stringify(payload)]; the payload itself is recorded. *)
Inductive request :=
| GET (url : string)
| POST (url : string) (payload : list (string * JS.value)).

(** What [await fetch(...)] followed by [await res.json()] yields: the
    parsed body, or the rejection of either promise (no connection, a body
    that is not JSON). *)
Inductive reply :=
| Rejected (e : JS.exn)
| Json (body : JS.value).

(** The page.  [inputs] holds the elements read through [.value] and
    [.style], [texts] the [innerText] of the elements written to; an id
    that is in neither has no element ([getElementById] returns [null]).
    [alerts], [console] and [requests] record, oldest first, the dialogs
    shown, the lines logged and the requests issued. *)
Record page := Page {
  inputs : gmap string input;
  texts : gmap string string;
  logsChart : chart;
  donutChart : chart;
  barChart : chart;
  alerts : list string;
  console : list string;
  requests : list request
}.

(** ** Scripts: state and exceptions *)

Inductive completion (A : Type) :=
| Normal (a : A)
| Throw (e : JS.exn).
Arguments Normal {A} a.
Arguments Throw {A} e.

Definition script (A : Type) : Type := page -> completion A * page.

#[global] Instance script_ret : MRet script :=
  fun A a st => (Normal a, st).

#[global] Instance script_bind : MBind script :=
  fun A B k m st =>
    match m st with
    | (Normal a, st') => k a st'
    | (Throw e, st') => (Throw e, st')
    end.

Definition throw {A} (e : JS.exn) : script A := fun st => (Throw e, st).

(** [try { body } catch (err) { handler err }]. *)
Definition try_catch {A} (body : script A) (handler : JS.exn -> script A) : script A :=
  fun st =>
    match body st with
    | (Normal a, st') => (Normal a, st')
    | (Throw e, st') => handler e st'
    end.

(** A property read that may throw. *)
Definition prop (v : JS.value) (name : string) : script JS.value :=
  match JS.get v name with
  | inl e => throw e
  | inr x => mret x
  end.

(** The conversions as the script performs them: [ToPrimitive] first,
    which throws on a value that is not [JS.convertible]. *)
Definition to_string (v : JS.value) : script string :=
  if JS.convertible v then mret (JS.ToString v) else throw JS.not_convertible.

Definition to_number (v : JS.value) : script float :=
  if JS.convertible v then mret (JS.ToNumber v) else throw JS.not_convertible.

(** [array.forEach(f)]. *)
Fixpoint forEach {A} (l : list A) (f : A -> script unit) : script unit :=
  match l with
  | [] => mret tt
  | a :: l' => f a ;; forEach l' f
  end.

(** [array.map(f)]. *)
Fixpoint mapM {A B} (f : A -> script B) (l : list A) : script (list B) :=
  match l with
  | [] => mret []
  | a :: l' => b ← f a; bs ← mapM f l'; mret (b :: bs)
  end.

(** [v.map(f)]: defined on arrays only. *)
Definition Array_map (name : string) (v : JS.value) (f : JS.value -> script JS.value)
  : script (list JS.value) :=
  match v with
  | JS.VArr elems => mapM f elems
  | JS.VUndefined => throw (JS.TypeError "Cannot read properties of undefined (reading 'map')")
  | JS.VNull => throw (JS.TypeError "Cannot read properties of null (reading 'map')")
  | _ => throw (JS.TypeError (name +:+ ".map is not a function"))
  end.

(** *** The page's primitives *)

(** [document.getElementById(id).value]. *)
Definition value_of (id : string) : script string :=
  fun st =>
    match inputs st !! id with
    | Some el => (Normal (input_value el), st)
    | None => (Throw (JS.TypeError "Cannot read properties of null (reading 'value')"), st)
    end.

(** [document.getElementById(id).style.border = css]. *)
Definition set_border (id css : string) : script unit :=
  fun st =>
    match inputs st !! id with
    | Some el =>
        (Normal tt,
         Page (<[id := Input (input_value el) css]> (inputs st)) (texts st)
              (logsChart st) (donutChart st) (barChart st)
              (alerts st) (console st) (requests st))
    | None => (Throw (JS.TypeError "Cannot read properties of null (reading 'style')"), st)
    end.

(** What the [innerText] setter stores for a [JS.convertible] value:
    [null] becomes the empty string, anything else its string. *)
Definition innerText_of (v : JS.value) : string :=
  match v with
  | JS.VNull => ""
  | _ => JS.ToString v
  end.

Definition with_texts (f : gmap string string -> gmap string string) (st : page) : page :=
  Page (inputs st) (f (texts st)) (logsChart st) (donutChart st) (barChart st)
       (alerts st) (console st) (requests st).

(** [document.getElementById(id).innerText = v]: a TypeError when there
    is no such element; otherwise the setter converts [v] to a string,
    which throws when [v] is not [JS.convertible]. *)
Definition set_innerText (id : string) (v : JS.value) : script unit :=
  fun st =>
    match texts st !! id with
    | Some _ =>
        if JS.convertible v
        then (Normal tt, with_texts <[id := innerText_of v]> st)
        else (Throw JS.not_convertible, st)
    | None => (Throw (JS.TypeError "Cannot set properties of null (setting 'innerText')"), st)
    end.

Definition alert (msg : string) : script unit :=
  fun st =>
    (Normal tt,
     Page (inputs st) (texts st) (logsChart st) (donutChart st) (barChart st)
          (alerts st ++ [msg]) (console st) (requests st)).

Definition console_log (line : string) : script unit :=
  fun st =>
    (Normal tt,
     Page (inputs st) (texts st) (logsChart st) (donutChart st) (barChart st)
          (alerts st) (console st ++ [line]) (requests st)).

Definition set_logsChart (c : chart) : script unit :=
  fun st =>
    (Normal tt,
     Page (inputs st) (texts st) c (donutChart st) (barChart st)
          (alerts st) (console st) (requests st)).

Definition set_donutChart (c : chart) : script unit :=
  fun st =>
    (Normal tt,
     Page (inputs st) (texts st) (logsChart st) c (barChart st)
          (alerts st) (console st) (requests st)).

Definition set_barChart (c : chart) : script unit :=
  fun st =>
    (Normal tt,
     Page (inputs st) (texts st) (logsChart st) (donutChart st) c
          (alerts st) (console st) (requests st)).

Definition get_page : script page := fun st => (Normal st, st).

(** ** The script *)

(** Standard sensor ranges: [key: [min, max]], in the order of the source. *)
Definition ranges : list (string * (float * float)) :=
  [ ("temp", (25, 45)); ("pressure", (3, 5)); ("flow", (140, 180));
    ("vibration", (0, 1)); ("fillheight", (245, 255)); ("power", (3, 5));
    ("co2", (380, 450)); ("humidity", (45, 60)) ]%float.

(** [Object.keys(ranges)]. *)
Definition keys : list string := fst <$> ranges.

(** [ranges[key]]. *)
Definition ranges_get (key : string) : option (float * float) :=
  snd <$> find (fun kv => String.eqb (fst kv) key) ranges.

(** The bar colours. *)
Definition red : string := "#e63946".
Definition green : string := "#29c37a".

(** The form fields [onPredict] goes through. *)
Definition ids : list string :=
  ["temp"; "pressure"; "flow"; "vibration"; "fillheight"; "power"; "co2"; "humidity"].

Definition border_reset : string := "1px solid #ccc".
Definition border_error : string := "2px solid red".

Section Script.

(** The server, as seen from the page: what each request is answered. *)
Variable server : request -> reply.

(** [await fetch(...)] then [await res.json()]. *)
Definition fetch_json (req : request) : script JS.value :=
  fun st =>
    let st' := Page (inputs st) (texts st) (logsChart st) (donutChart st)
                    (barChart st) (alerts st) (console st) (requests st ++ [req]) in
    match server req with
    | Rejected e => (Throw e, st')
    | Json body => (Normal body, st')
    end.

(** [setDonutCenter(text)]: writes the text when the element exists. *)
Definition setDonutCenter (text : string) : script unit :=
  fun st =>
    match texts st !! "donutCenter" with
    | Some _ => (Normal tt, with_texts <["donutCenter" := text]> st)
    | None => (Normal tt, st)
    end.

(** The colour [updateBarChart] gives the bar of [key].  The values
    compared are those of a payload: a Number under each key, or
    [undefined] for a key that is not there; their conversion cannot throw. *)
Definition bar_color (values : list (string * JS.value)) (key : string) : script string :=
  let v := JS.lookup_prop key values in
  match ranges_get key with
  | Some (min, max) => mret (if JS.lt v min || JS.gt v max then red else green)
  | None => throw (JS.TypeError "undefined is not iterable")
  end.

(** [updateBarChart(values)]. *)
Definition updateBarChart (values : list (string * JS.value)) : script unit :=
  colors ← mapM (bar_color values) keys;
  st ← get_page;
  set_barChart (Chart (labels (barChart st))
                      ((fun key => JS.lookup_prop key values) <$> keys)
                      colors).

(** [loadLogsChart()]. *)
Definition loadLogsChart : script unit :=
  try_catch
    (logs ← fetch_json (GET "/logs");
     ls ← Array_map "logs" logs (fun l => prop l "timestamp");
     st ← get_page;
     set_logsChart (Chart ls (data (logsChart st)) (backgroundColor (logsChart st)));;
     ds ← Array_map "logs" logs
            (fun l => p ← prop l "probability";
                      x ← to_number p;
                      mret (JS.VNum (JS.Math_round (x * 100))));
     st ← get_page;
     set_logsChart (Chart (labels (logsChart st)) ds (backgroundColor (logsChart st))))
    (fun err => console_log ("Log fetch error: " +:+ JS.exn_toString err)).

(** The empty check of [onPredict]: the second [forEach], with the
    variable [allFilled] it assigns. *)
Fixpoint empty_check (l : list string) (allFilled : bool) : script bool :=
  match l with
  | [] => mret allFilled
  | id :: l' =>
      v ← value_of id;
      if String.eqb v ""
      then set_border id border_error ;; empty_check l' false
      else empty_check l' allFilled
  end.

(** The first two loops of [onPredict]: reset every border, then mark
    the empty fields. *)
Definition validate : script bool :=
  forEach ids (fun id => set_border id border_reset) ;;
  empty_check ids true.

(** The payload: [payload[id] = Number(document.getElementById(id).value)]. *)
Definition make_payload : script (list (string * JS.value)) :=
  mapM (fun id => v ← value_of id; mret (id, JS.VNum (JS.StringToNumber v))) ids.

(** What [onPredict] does with the parsed answer of [/predict]. *)
Definition on_answer (payload : list (string * JS.value)) (answer : JS.value)
  : script unit :=
  err ← prop answer "error";
  if JS.ToBoolean err
  then text ← to_string err; alert ("Server Error: " +:+ text)
  else
    probability ← prop answer "probability";
    x ← to_number (JS.or probability (JS.VNum 0));
    let probPercent := JS.Math_round (x * 100) in
    st ← get_page;
    set_donutChart (Chart (labels (donutChart st))
                          [JS.VNum (100 - probPercent); JS.VNum probPercent]
                          (backgroundColor (donutChart st))) ;;
    setDonutCenter (JS.Number_toString probPercent +:+ "%") ;;
    error_code ← prop answer "error_code";
    set_innerText "errCode" error_code ;;
    error_description ← prop answer "error_description";
    set_innerText "errDesc" error_description ;;
    updateBarChart payload ;;
    loadLogsChart.

(** [onPredict()], the handler of the Predict button. *)
Definition onPredict : script unit :=
  allFilled ← validate;
  if negb allFilled then alert "⚠ Please fill all fields."
  else
    payload ← make_payload;
    try_catch
      (answer ← fetch_json (POST "/predict" payload);
       on_answer payload answer)
      (fun err => alert ("Communication Error: " +:+ JS.exn_toString err)).

(** The [load] listener: creates the three charts, sets the centre text
    and loads the logs. *)
Definition onLoad : script unit :=
  set_logsChart (Chart [] [] []) ;;
  set_donutChart (Chart [JS.VStr "Safe"; JS.VStr "Error"]
                        [JS.VNum 100; JS.VNum 0]
                        [green; red]) ;;
  setDonutCenter "0%" ;;
  set_barChart (Chart (JS.VStr <$> keys)
                      ((fun _ => JS.VNum 0) <$> keys)
                      ((fun _ => green) <$> keys)) ;;
  loadLogsChart.

End Script.

(** The page a script leaves behind. *)
Definition run {A} (s : script A) (st : page) : page := snd (s st).

(** ** Vocabulary of the properties *)

(** The colours of the bars, in display order. *)
Definition bar_colors (st : page) : list string := backgroundColor (barChart st).

(** The colour [updateBarChart] computes for an entry of [ranges]. *)
Definition color_for (values : list (string * JS.value))
  (entry : string * (float * float)) : string :=
  let v := JS.lookup_prop entry.1 values in
  if JS.lt v entry.2.1 || JS.gt v entry.2.2 then red else green.

(** A field with its border replaced. *)
Definition restyle (css : string) (el : input) : input :=
  Input (input_value el) css.

(** The second loop on one field: the error border if it is empty. *)
Definition mark (el : input) : input :=
  if String.eqb (input_value el) "" then restyle border_error el else el.

(** A field as the validation leaves it. *)
Definition styled (el : input) : input :=
  Input (input_value el)
        (if String.eqb (input_value el) "" then border_error else border_reset).

Definition with_inputs (f : gmap string input -> gmap string input) (st : page) : page :=
  Page (f (inputs st)) (texts st) (logsChart st) (donutChart st) (barChart st)
       (alerts st) (console st) (requests st).

(** Every id of [l] has its element. *)
Definition present (m : gmap string input) (l : list string) : bool :=
  forallb (fun id => bool_decide (is_Some (m !! id))) l.

(** Every id of [l] has its element, and none is empty. *)
Definition filled (m : gmap string input) (l : list string) : bool :=
  forallb (fun id => match m !! id with
                     | Some el => negb (String.eqb (input_value el) "")
                     | None => false
                     end) l.

(** The page has the eight fields. *)
Definition form_ok (st : page) : bool := present (inputs st) ids.

(** The page has the eight fields and none is empty. *)
Definition all_filled (st : page) : bool := filled (inputs st) ids.

(** The form after the two loops of the validation. *)
Definition validated (m : gmap string input) : gmap string input :=
  foldl (fun m id => alter mark id m)
        (foldl (fun m id => alter (restyle border_reset) id m) m ids) ids.

(** The payload [onPredict] builds from a form. *)
Definition payload_of (m : gmap string input) : list (string * JS.value) :=
  (fun id => (id, JS.VNum (JS.StringToNumber (default "" (input_value <$> m !! id))))) <$> ids.

(** A script leaves a part of the page as it found it. *)
Definition preserves {A X} (proj : page -> X) (s : script A) : Prop :=
  forall st, proj (run s st) = proj st.

(** The text of [#donutCenter], when the element exists. *)
Definition center_text (st : page) : option string := texts st !! "donutCenter".

(** The three charts. *)
Definition charts (st : page) : chart * chart * chart :=
  (logsChart st, donutChart st, barChart st).

(** [SameValueZero]: equal Numbers, the two zeros being the same. *)
Definition SameValueZero (x y : float) : Prop :=
  x = y \/ (is_zero x = true /\ is_zero y = true).

(** A log entry [{timestamp: t, probability: p}] of the [/logs] answer,
    whatever else it carries. *)
Definition is_log_entry (v : JS.value) (entry : string * float) : Prop :=
  JS.get v "timestamp" = inr (JS.VStr entry.1) /\
  JS.get v "probability" = inr (JS.VNum entry.2).

(** *** Pages and servers used as examples *)

(** A page with the eight fields holding [vals] and the three text
    elements, before the [load] listener has run. *)
Definition page_with (vals : list string) : page :=
  Page (list_to_map (zip ids ((fun v => Input v "") <$> vals)))
       (list_to_map [("donutCenter", ""); ("errCode", ""); ("errDesc", "")])
       (Chart [] [] []) (Chart [] [] []) (Chart [] [] []) [] [] [].

(** The log entry [{timestamp: t, probability: p}]. *)
Definition log_entry (t : string) (p : float) : JS.value :=
  JS.VObj [("timestamp", JS.VStr t); ("probability", JS.VNum p)].

(** A server that answers [/predict] with [answer] and [/logs] with [logs]. *)
Definition serving (answer logs : reply) (req : request) : reply :=
  match req with
  | POST _ _ => answer
  | GET _ => logs
  end.

Definition two_logs : reply :=
  Json (JS.VArr [log_entry "t1" 0.1; log_entry "t2" 0.5]).

(** Readings typed into the form, one of them not a number. *)
Definition readings : list string :=
  ["30"; "4"; "200"; "0.5"; "abc"; "5"; "379.9"; "45"].

(** A form with two fields left empty. *)
Definition partial_readings : list string :=
  ["30"; ""; "200"; "0.5"; ""; "5"; "379.9"; "45"].

(** A page whose fields all carry the error border of an earlier
    submission. *)
Definition marked_page (vals : list string) : page :=
  with_inputs (fmap (restyle border_error)) (page_with vals).

(** The page once [/predict] has been asked: the validated form, and the
    request recorded. *)
Definition asked (st : page) : page :=
  Page (validated (inputs st)) (texts st) (logsChart st) (donutChart st)
       (barChart st) (alerts st) (console st)
       (requests st ++ [POST "/predict" (payload_of (inputs st))]).

(** [probPercent], as [onPredict] derives it from the [probability] of
    the answer. *)
Definition probPercent_of (probability : JS.value) : float :=
  JS.Math_round (JS.ToNumber (JS.or probability (JS.VNum 0)) * 100).

(** An answer of [/predict] with the probability [p]. *)
Definition prediction (p : float) : JS.value :=
  JS.VObj [("probability", JS.VNum p); ("error_code", JS.VStr "E42");
           ("error_description", JS.VStr "Overheating")].

(** An answer of [/predict] that has no probability. *)
Definition no_probability : JS.value :=
  JS.VObj [("error_code", JS.VStr "E0"); ("error_description", JS.VStr "OK")].

(** The page with the fields holding [vals], once the [load] listener has
    run against a server that has two log entries. *)
Definition loaded (vals : list string) : page :=
  run (onLoad (serving (Json JS.VNull) two_logs)) (page_with vals).

(** An answer of [/predict] that reports an error. *)
Definition failure (error : JS.value) : JS.value := JS.VObj [("error", error)].

(** An answer has an own property [name]. *)
Definition has_field (name : string) (v : JS.value) : Prop :=
  match v with
  | JS.VObj props => exists x, (name, x) ∈ props
  | _ => False
  end.

(** A probability as the interface of [/predict] has it: a Number of
    [0, 1]; or a falsy value, which [onPredict] replaces by 0. *)
Definition probability_ok (v : JS.value) : Prop :=
  JS.ToBoolean v = false \/
  exists p, v = JS.VNum p /\ (0 <=? p)%float = true /\ (p <=? 1)%float = true.

(** A server whose answers to [/predict] carry such probabilities. *)
Definition well_typed (server : request -> reply) : Prop :=
  forall payload answer probability,
    server (POST "/predict" payload) = Json answer ->
    JS.get answer "probability" = inr probability ->
    probability_ok probability.

(** The pages the dashboard goes through: the [load] listener runs, then
    the user edits the form and presses the button, any number of times,
    against servers that keep to the interface. *)
Inductive reachable : page -> Prop :=
| reach_load (server : request -> reply) (st : page) :
    reachable (run (onLoad server) st)
| reach_edit (f : gmap string input -> gmap string input) (st : page) :
    reachable st -> reachable (with_inputs f st)
| reach_predict (server : request -> reply) (st : page) :
    well_typed server -> reachable st -> reachable (run (onPredict server) st).

(** The donut holds exactly two Numbers, and they add up to 100. *)
Definition donut_sums_to_100 (st : page) : Prop :=
  exists a b, data (donutChart st) = [JS.VNum a; JS.VNum b] /\ (a + b)%float = 100%float.

(** An answer of [/predict] whose probability is a word. *)
Definition worded : JS.value :=
  JS.VObj [("probability", JS.VStr "high"); ("error_code", JS.VStr "E42");
           ("error_description", JS.VStr "Overheating")].

(** *** Vocabulary of the further properties *)

(** How a script completes. *)
Definition outcome {A} (s : script A) (st : page) : completion A := fst (s st).

(** An element of the [/logs] answer whose properties can be read: any
    value but [null] and [undefined]. *)
Definition readable (v : JS.value) : bool :=
  match v with
  | JS.VUndefined | JS.VNull => false
  | _ => true
  end.

(** [v.name] for a readable [v]. *)
Definition field (name : string) (v : JS.value) : JS.value :=
  match JS.get v name with
  | inr x => x
  | inl _ => JS.VUndefined
  end.

(** The point [loadLogsChart] plots for an element of the answer. *)
Definition log_point (v : JS.value) : JS.value :=
  JS.VNum (JS.Math_round (JS.ToNumber (field "probability" v) * 100)).

(** The probability of an element converts to a Number. *)
Definition plottable (v : JS.value) : bool :=
  JS.convertible (field "probability" v).

(** The answer of [/logs] is an array whose elements can all be read. *)
Definition logs_ok (server : request -> reply) : bool :=
  match server (GET "/logs") with
  | Json (JS.VArr elems) => forallb readable elems
  | _ => false
  end.

(** It is such an array, and the probabilities of its elements all
    convert. *)
Definition logs_plottable (server : request -> reply) : bool :=
  match server (GET "/logs") with
  | Json (JS.VArr elems) => forallb readable elems && forallb plottable elems
  | _ => false
  end.

(** The line chart after [loadLogsChart], from the one before: the labels
    are assigned once the first [map] is through, the points once the
    second is. *)
Definition logs_after (server : request -> reply) (c : chart) : chart :=
  match server (GET "/logs") with
  | Json (JS.VArr elems) =>
      if forallb readable elems
      then Chart (field "timestamp" <$> elems)
                 (if forallb plottable elems then log_point <$> elems else data c)
                 (backgroundColor c)
      else c
  | _ => c
  end.

(** The texts after [setDonutCenter(text)]. *)
Definition center_set (text : string) (m : gmap string string) : gmap string string :=
  match m !! "donutCenter" with
  | Some _ => <["donutCenter" := text]> m
  | None => m
  end.

(** The page after the donut and its centre are written. *)
Definition donut_written (probPercent : float) (st : page) : page :=
  Page (inputs st)
       (center_set (JS.Number_toString probPercent +:+ "%") (texts st))
       (logsChart st)
       (Chart (labels (donutChart st))
              [JS.VNum (100 - probPercent); JS.VNum probPercent]
              (backgroundColor (donutChart st)))
       (barChart st) (alerts st) (console st) (requests st).

(** A script issues no request, or [/logs] once. *)
Definition at_most_logs {A} (s : script A) : Prop :=
  forall st, requests (run s st) = requests st \/
             requests (run s st) = (requests st ++ [GET "/logs"])%list.

(** A script keeps a property of the page. *)
Definition keeps {A} (I : page -> Prop) (s : script A) : Prop :=
  forall st, I st -> I (run s st).

(** The shape of the bar chart and of the donut: one bar per sensor key,
    each red or green; a donut of two slices, safe and error. *)
Definition chart_shape (st : page) : Prop :=
  labels (barChart st) = JS.VStr <$> keys /\
  length (data (barChart st)) = length keys /\
  length (bar_colors st) = length keys /\
  Forall (fun c => c = red \/ c = green) (bar_colors st) /\
  labels (donutChart st) = [JS.VStr "Safe"; JS.VStr "Error"] /\
  backgroundColor (donutChart st) = [green; red] /\
  length (data (donutChart st)) = 2%nat.

(** The pages the dashboard goes through, whatever the servers answer. *)
Inductive visited : page -> Prop :=
| visit_load (server : request -> reply) (st : page) :
    visited (run (onLoad server) st)
| visit_edit (f : gmap string input -> gmap string input) (st : page) :
    visited st -> visited (with_inputs f st)
| visit_predict (server : request -> reply) (st : page) :
    visited st -> visited (run (onPredict server) st).

(** A page that lacks the element [id] among its texts, or among its
    fields. *)
Definition without_text (id : string) (st : page) : page :=
  with_texts (delete id) st.

Definition without_field (id : string) (st : page) : page :=
  with_inputs (delete id) st.

(** A log entry that carries no probability. *)
Definition bare_entry (t : string) : JS.value :=
  JS.VObj [("timestamp", JS.VStr t)].

(** A value that has no primitive: the object [{"toString": 1}]. *)
Definition unconvertible : JS.value := JS.VObj [("toString", JS.VNum 1)].

(** A log entry whose probability is such a value. *)
Definition odd_entry (t : string) : JS.value :=
  JS.VObj [("timestamp", JS.VStr t); ("probability", unconvertible)].

(** A text that is not empty and holds white space only. *)
Definition blank (s : string) : bool :=
  negb (String.eqb s "") && forallb JS.is_space (list_ascii_of_string s).

(** The texts [onPredict] writes. *)
Definition written_texts : list string := ["donutCenter"; "errCode"; "errDesc"].

(** ** Facts about Numbers *)

Module FloatFacts.

Lemma compare_cont_Eq_antisym (p q : positive) :
  Pos.compare_cont Eq q p = CompOpp (Pos.compare_cont Eq p q).
Proof. exact (eq_sym (Pos.compare_cont_antisym p q Eq)). Qed.

Lemma SFcompare_antisym (x y : spec_float) :
  SFcompare y x = CompOpp <$> SFcompare x y.
Proof.
  destruct x as [[]|[]| |[] mx ex], y as [[]|[]| |[] my ey]; try reflexivity;
    cbn; rewrite (Z.compare_antisym ey ex), (compare_cont_Eq_antisym mx my);
    destruct (ey ?= ex); cbn; reflexivity.
Qed.

Lemma SFcompare_refl (x : spec_float) :
  x <> S754_nan -> SFcompare x x = Some Eq.
Proof.
  destruct x as [[]|[]| |[] m e]; intros H; try reflexivity; try congruence;
    cbn; rewrite Z.compare_refl, Pos.compare_cont_refl; reflexivity.
Qed.

Lemma is_nan_spec (x : float) : is_nan x = true <-> Prim2SF x = S754_nan.
Proof.
  unfold is_nan. rewrite FloatAxioms.eqb_spec. unfold SFeqb. split.
  - intros H. destruct (Prim2SF x) eqn:E; try reflexivity;
      rewrite SFcompare_refl in H by discriminate; discriminate.
  - intros ->. reflexivity.
Qed.

Lemma is_nan_false (x : float) : is_nan x = false <-> Prim2SF x <> S754_nan.
Proof.
  rewrite <- is_nan_spec. destruct (is_nan x); split; congruence.
Qed.

Lemma is_nan_eq (x : float) : is_nan x = true -> x = nan.
Proof.
  intros H%is_nan_spec. apply Prim2SF_inj. rewrite H. reflexivity.
Qed.

Lemma ltb_nan_l (x y : float) : is_nan x = true -> (x <? y)%float = false.
Proof.
  intros H%is_nan_spec. rewrite FloatAxioms.ltb_spec, H. reflexivity.
Qed.

Lemma ltb_nan_r (x y : float) : is_nan y = true -> (x <? y)%float = false.
Proof.
  intros H%is_nan_spec. rewrite FloatAxioms.ltb_spec, H. unfold SFltb.
  destruct (Prim2SF x); reflexivity.
Qed.

Lemma leb_nan_l (x y : float) : is_nan x = true -> (x <=? y)%float = false.
Proof.
  intros H%is_nan_spec. rewrite FloatAxioms.leb_spec, H. reflexivity.
Qed.

Lemma leb_nan_r (x y : float) : is_nan y = true -> (x <=? y)%float = false.
Proof.
  intros H%is_nan_spec. rewrite FloatAxioms.leb_spec, H. unfold SFleb.
  destruct (Prim2SF x); reflexivity.
Qed.

Lemma leb_refl (x : float) : is_nan x = false -> (x <=? x)%float = true.
Proof.
  intros H%is_nan_false. rewrite FloatAxioms.leb_spec. unfold SFleb.
  now rewrite SFcompare_refl.
Qed.

(** On Numbers other than NaN, [<=] is the negation of [>]. *)
Lemma leb_negb_ltb (x y : float) :
  is_nan x = false -> is_nan y = false -> (x <=? y)%float = negb (y <? x)%float.
Proof.
  intros Hx%is_nan_false Hy%is_nan_false.
  rewrite FloatAxioms.leb_spec, FloatAxioms.ltb_spec. unfold SFleb, SFltb.
  rewrite (SFcompare_antisym (Prim2SF x) (Prim2SF y)).
  destruct (Prim2SF x) as [[]|[]| |[] mx ex], (Prim2SF y) as [[]|[]| |[] my ey];
    try congruence; try reflexivity; cbn;
    destruct (ex ?= ey); try reflexivity;
    destruct (Pos.compare_cont Eq mx my); reflexivity.
Qed.

(** A Number that is [== 0] is one of the two zeros. *)
Lemma is_zero_cases (x : float) : is_zero x = true -> x = zero \/ x = neg_zero.
Proof.
  unfold is_zero. rewrite FloatAxioms.eqb_spec. intros H.
  destruct (Prim2SF x) as [[]|[]| |[] m e] eqn:E; try discriminate H.
  - right. apply Prim2SF_inj. rewrite E. reflexivity.
  - left. apply Prim2SF_inj. rewrite E. reflexivity.
Qed.

End FloatFacts.

(** ** Rounding: a probability of [0, 1] as a percentage *)

Module Rounding.


Lemma fexp_eq (x : Z) : fexp prec emax x = Z.max (x - 53) (-1074).
Proof. reflexivity. Qed.

Lemma digits2_pos_size (p : positive) : digits2_pos p = Pos.size p.
Proof. induction p as [p IH|p IH|]; cbn; congruence. Qed.

(** [x < 2^k] bounds the number of binary digits of [x] by [k]. *)
Lemma Zdigits2_le (x k : Z) : 0 <= x -> 0 <= k -> x < 2 ^ k -> Zdigits2 x <= k.
Proof.
  intros Hx Hk Hlt. destruct x as [|p|p]; cbn; [lia| |lia].
  rewrite digits2_pos_size.
  pose proof (Pos.size_le p) as Hle.
  assert (H : 2 ^ Z.pos (Pos.size p) <= 2 * Z.pos p).
  { rewrite <- Pos2Z.inj_pow. change (2 * Z.pos p) with (Z.pos p~0). exact Hle. }
  destruct (Z_lt_le_dec k (Z.pos (Pos.size p))) as [Hgt|]; [|lia].
  exfalso.
  assert (2 ^ (k + 1) <= 2 ^ Z.pos (Pos.size p)) by (apply Z.pow_le_mono_r; lia).
  rewrite Z.pow_add_r in * by lia. lia.
Qed.

Lemma shr_1_m (mrs : shr_record) :
  0 <= shr_m mrs -> shr_m (shr_1 mrs) = shr_m mrs / 2.
Proof.
  destruct mrs as [[|[p|p|]|p] r s]; cbn; intros H;
    Z.to_euclidean_division_equations; lia.
Qed.

Lemma iter_shr_1_m (n : positive) : forall mrs : shr_record,
  0 <= shr_m mrs -> shr_m (SpecFloat.iter_pos shr_1 n mrs) = shr_m mrs / 2 ^ Z.pos n.
Proof.
  induction n as [n IH|n IH|]; intros mrs Hm; cbn [SpecFloat.iter_pos].
  - assert (H1 : 0 <= shr_m (shr_1 mrs)).
    { rewrite shr_1_m by exact Hm. apply Z.div_pos; lia. }
    assert (H2 : 0 <= shr_m (SpecFloat.iter_pos shr_1 n (shr_1 mrs))).
    { rewrite IH by exact H1. apply Z.div_pos; lia. }
    rewrite (IH _ H2), (IH _ H1), shr_1_m by exact Hm.
    rewrite !Z.div_div by lia. f_equal.
    rewrite Pos2Z.inj_xI, <- Z.pow_add_r, <- (Z.pow_1_r 2) at 1 by lia.
    rewrite <- Z.pow_add_r by lia. f_equal. lia.
  - assert (H2 : 0 <= shr_m (SpecFloat.iter_pos shr_1 n mrs)).
    { rewrite IH by exact Hm. apply Z.div_pos; lia. }
    rewrite (IH _ H2), (IH _ Hm). rewrite Z.div_div by lia. f_equal.
    rewrite Pos2Z.inj_xO, <- Z.pow_add_r by lia. f_equal. lia.
  - apply shr_1_m. exact Hm.
Qed.

(** A right shift divides the significand by a power of two. *)
Lemma shr_m_spec (mrs : shr_record) (e n : Z) :
  0 <= shr_m mrs ->
  shr_m (shr mrs e n).1 = shr_m mrs / 2 ^ Z.max n 0 /\
  (shr mrs e n).2 = e + Z.max n 0.
Proof.
  intros Hm. destruct n as [|q|q]; cbn [shr fst snd].
  - rewrite Z.div_1_r. lia.
  - rewrite iter_shr_1_m by exact Hm. rewrite Z.max_l by lia. split; reflexivity.
  - rewrite Z.div_1_r. lia.
Qed.

Lemma round_nearest_even_bounds (m : Z) (l : location) :
  m <= round_nearest_even m l <= m + 1.
Proof. destruct l as [|[]]; cbn; try lia. destruct (Z.even m); lia. Qed.


Lemma pow2_split (a b : Z) : 0 <= a -> 0 <= b -> 2 ^ (a + b) = 2 ^ a * 2 ^ b.
Proof. intros. apply Z.pow_add_r; assumption. Qed.

(** Rounding a positive value below 100, given with an exponent of at most
    -46, gives zero or a positive Number that is at most 100. *)
Lemma binary_round_aux_le_100 (X E : Z) :
  0 < X -> E <= -46 -> X < 100 * 2 ^ (- E) ->
  binary_round_aux prec emax false X E loc_Exact = S754_zero false \/
  exists m e,
    binary_round_aux prec emax false X E loc_Exact = S754_finite false m e /\
    e <= -46 /\ Z.pos m <= 100 * 2 ^ (- e).
Proof.
  intros HX HE Hlt. unfold binary_round_aux, shr_fexp.
  assert (Hd : Zdigits2 X <= 7 - E).
  { apply Zdigits2_le; [lia|lia|].
    replace (7 - E) with (7 + - E) by lia.
    rewrite (pow2_split 7 (- E)) by lia. change (2 ^ 7) with 128.
    assert (0 < 2 ^ (- E)) by (apply Z.pow_pos_nonneg; lia). lia. }
  set (n1 := fexp prec emax (Zdigits2 X + E) - E).
  destruct (shr_m_spec (shr_record_of_loc X loc_Exact) E n1) as [Hm1 He1];
    [cbn; lia|].
  destruct (shr (shr_record_of_loc X loc_Exact) E n1) as [mrs1 e1].
  cbn [fst snd shr_record_of_loc shr_m] in Hm1, He1.
  assert (He1' : e1 <= -46).
  { subst e1 n1. rewrite fexp_eq. lia. }
  assert (Hk1 : 0 <= Z.max n1 0) by lia.
  assert (Hb1 : 0 <= shr_m mrs1 < 100 * 2 ^ (- e1)).
  { rewrite Hm1. split.
    - apply Z.div_pos; [lia|]. apply Z.pow_pos_nonneg; lia.
    - apply Z.div_lt_upper_bound; [apply Z.pow_pos_nonneg; lia|].
      replace (- E) with (Z.max n1 0 + - e1) in Hlt by lia.
      rewrite pow2_split in Hlt by lia. lia. }
  pose proof (round_nearest_even_bounds (shr_m mrs1) (loc_of_shr_record mrs1)) as Hr.
  set (m1 := round_nearest_even (shr_m mrs1) (loc_of_shr_record mrs1)) in *.
  assert (Hd1 : Zdigits2 m1 <= 7 - e1).
  { apply Zdigits2_le; [lia|lia|].
    replace (7 - e1) with (7 + - e1) by lia.
    rewrite (pow2_split 7 (- e1)) by lia. change (2 ^ 7) with 128.
    assert (0 < 2 ^ (- e1)) by (apply Z.pow_pos_nonneg; lia). lia. }
  set (n2 := fexp prec emax (Zdigits2 m1 + e1) - e1).
  destruct (shr_m_spec (shr_record_of_loc m1 loc_Exact) e1 n2) as [Hm2 He2];
    [cbn; lia|].
  destruct (shr (shr_record_of_loc m1 loc_Exact) e1 n2) as [mrs2 e2].
  cbn [fst snd shr_record_of_loc shr_m] in Hm2, He2.
  assert (He2' : e2 <= -46).
  { subst e2 n2. rewrite fexp_eq. lia. }
  assert (Hb2 : 0 <= shr_m mrs2 <= 100 * 2 ^ (- e2)).
  { rewrite Hm2. split.
    - apply Z.div_pos; [lia|]. apply Z.pow_pos_nonneg; lia.
    - apply Z.div_le_upper_bound; [apply Z.pow_pos_nonneg; lia|].
      assert (E2 : 2 ^ (- e1) = 2 ^ Z.max n2 0 * 2 ^ (- e2)).
      { rewrite <- pow2_split by lia. f_equal. lia. }
      rewrite E2 in Hb1. lia. }
  destruct (shr_m mrs2) as [|m2|m2] eqn:Em2.
  - left. reflexivity.
  - right. exists m2, e2.
    assert (Hle : (e2 <=? emax - prec) = true) by (apply Z.leb_le; change (emax - prec) with 971; lia).
    rewrite Hle. repeat split; lia.
  - lia.
Qed.

End Rounding.


Lemma Prim2SF_100 : Prim2SF 100 = S754_finite false 7036874417766400 (-46).
Proof. reflexivity. Qed.

Lemma Prim2SF_1 : Prim2SF 1 = S754_finite false 4503599627370496 (-52).
Proof. reflexivity. Qed.

Lemma canonical_mantissa_lt (m : positive) (e : Z) :
  canonical_mantissa prec emax m e = true -> Z.pos m < 2 ^ 53.
Proof.
  unfold canonical_mantissa. rewrite Rounding.fexp_eq, Rounding.digits2_pos_size.
  intros H%Z.eqb_eq.
  assert (Hs : Z.pos (Pos.size m) <= 53) by lia.
  pose proof (Pos.size_gt m) as Hgt.
  assert (Hz : Z.pos m < 2 ^ Z.pos (Pos.size m)).
  { rewrite <- Pos2Z.inj_pow. exact Hgt. }
  assert (2 ^ Z.pos (Pos.size m) <= 2 ^ 53) by (apply Z.pow_le_mono_r; lia).
  lia.
Qed.

Lemma SFleb_finite_pos (m m' : positive) (e e' : Z) :
  SFleb (S754_finite false m e) (S754_finite false m' e') = true ->
  e < e' \/ (e = e' /\ Z.pos m <= Z.pos m').
Proof.
  unfold SFleb, SFcompare.
  change (Pos.compare_cont Eq m m') with (Pos.compare m m').
  destruct (Z.compare_spec e e') as [He|He|He]; intros H; try discriminate H.
  - right. split; [exact He|].
    destruct (Pos.compare_spec m m') as [Hm|Hm|Hm]; try discriminate H.
    + subst. lia.
    + apply Pos2Z.pos_lt_pos in Hm. lia.
  - left. exact He.
Qed.

(** A Number of (0, 1] times 100 is zero (by underflow) or a positive
    Number that is at most 100. *)
Lemma mul_100_le_100 (p : float) :
  (0 <=? p)%float = true -> (p <=? 1)%float = true -> is_zero p = false ->
  Prim2SF (p * 100) = S754_zero false \/
  exists m e,
    Prim2SF (p * 100) = S754_finite false m e /\
    e <= -46 /\ Z.pos m <= 100 * 2 ^ (- e).
Proof.
  intros H0 H1 Hz.
  rewrite FloatAxioms.leb_spec in H0, H1. unfold is_zero in Hz.
  rewrite FloatAxioms.eqb_spec in Hz.
  pose proof (Prim2SF_valid p) as Hv.
  rewrite mul_spec, Prim2SF_100. rewrite Prim2SF_1 in H1.
  change (Prim2SF 0) with (S754_zero false) in H0, Hz.
  destruct (Prim2SF p) as [s|s| |s m e]; try discriminate.
  - destruct s; discriminate.
  - destruct s; [discriminate|]. clear H0 Hz.
    cbn [valid_binary] in Hv. unfold bounded in Hv.
    apply andb_true_iff in Hv as [Hc _].
    apply canonical_mantissa_lt in Hc.
    apply SFleb_finite_pos in H1.
    unfold SF64mul, SFmul. cbn [xorb]. rewrite Pos2Z.inj_mul.
    assert (Hcase : Z.pos m = 4503599627370496 /\ e = -52
                    \/ Z.pos m * 7036874417766400 < 100 * 2 ^ (- (e + -46))).
    { destruct H1 as [He|[He Hm]].
      - right. replace (- (e + -46)) with (46 + (- e - 53) + 53) by lia.
        rewrite !Rounding.pow2_split by lia.
        assert (0 < 2 ^ (- e - 53)) by (apply Z.pow_pos_nonneg; lia).
        change (2 ^ 46) with 70368744177664.
        change (2 ^ 53) with 9007199254740992 in *.
        nia.
      - subst e. destruct (Z.eq_dec (Z.pos m) 4503599627370496) as [E|NE].
        + left. split; [exact E|reflexivity].
        + right. change (- (-52 + -46)) with 98.
          assert (E : 100 * 2 ^ 98 = 4503599627370496 * 7036874417766400)
            by (vm_compute; reflexivity).
          rewrite E. lia. }
    destruct Hcase as [[Hm He]|Hlt].
    + injection Hm as ->. subst e. right. eexists _, _.
      split; [vm_compute; reflexivity|]. split; [lia|]. vm_compute. discriminate.
    + apply Rounding.binary_round_aux_le_100; [lia| |exact Hlt].
      destruct H1 as [He|[He _]]; lia.
Qed.

(** [Math.round] of a Number of (0, 1] times 100 is an integer from 0 to 100. *)
Lemma Math_round_mul_100 (p : float) :
  (0 <=? p)%float = true -> (p <=? 1)%float = true -> is_zero p = false ->
  exists n : Z, 0 <= n <= 100 /\ JS.Math_round (p * 100) = JS.of_Z n.
Proof.
  intros H0 H1 Hz. unfold JS.Math_round.
  destruct (mul_100_le_100 p H0 H1 Hz) as [Hzero|(m & e & Hf & He & Hm)].
  - rewrite Hzero. exists 0. split; [lia|].
    apply Prim2SF_inj. rewrite Hzero. reflexivity.
  - rewrite Hf. rewrite (proj2 (Z.leb_gt 0 e)) by lia.
    set (n := (2 * Z.pos m + 2 ^ (- e)) / 2 ^ (1 - e)).
    assert (Hpos : 0 < 2 ^ (- e)) by (apply Z.pow_pos_nonneg; lia).
    assert (Hpow : 2 ^ (1 - e) = 2 * 2 ^ (- e)).
    { replace (1 - e) with (1 + - e) by lia. rewrite Rounding.pow2_split by lia.
      reflexivity. }
    assert (Hn : 0 <= n <= 100).
    { unfold n. rewrite Hpow. split.
      - apply Z.div_pos; lia.
      - apply Z.lt_succ_r. apply Z.div_lt_upper_bound; lia. }
    exists n. split; [exact Hn|].
    destruct (Z.eqb_spec n 0) as [->|_]; reflexivity.
Qed.

(** [probPercent] for a probability of [0, 1]. *)
Lemma probPercent_of_range (p : float) :
  (0 <=? p)%float = true -> (p <=? 1)%float = true ->
  exists n : Z, 0 <= n <= 100 /\ probPercent_of (JS.VNum p) = JS.of_Z n.
Proof.
  intros H0 H1. unfold probPercent_of, JS.or, JS.ToBoolean.
  assert (Hnan : is_nan p = false).
  { destruct (is_nan p) eqn:E; [|reflexivity].
    rewrite (FloatFacts.leb_nan_r 0 p E) in H0. discriminate. }
  rewrite Hnan, orb_false_r. destruct (is_zero p) eqn:Hz; cbn [negb JS.ToNumber].
  - exists 0. split; [lia|reflexivity].
  - apply Math_round_mul_100; assumption.
Qed.

(** What the donut and its centre do with a percentage. *)
Lemma percent_facts :
  Forall (fun n => (100 - JS.of_Z n)%float = JS.of_Z (100 - n) /\
                   (JS.of_Z (100 - n) + JS.of_Z n)%float = 100%float /\
                   JS.Number_toString (JS.of_Z n) = JS.decimal n)
         (seqZ 0 101).
Proof.
  repeat (constructor; [vm_compute; repeat split; reflexivity|]). constructor.
Qed.

Lemma percent_fact (n : Z) :
  0 <= n <= 100 ->
  (100 - JS.of_Z n)%float = JS.of_Z (100 - n) /\
  (JS.of_Z (100 - n) + JS.of_Z n)%float = 100%float /\
  JS.Number_toString (JS.of_Z n) = JS.decimal n.
Proof.
  intros Hn. pose proof percent_facts as H. rewrite Forall_forall in H.
  apply H. apply elem_of_seqZ. lia.
Qed.

(** ** Facts about scripts *)

Lemma bind_run {A B} (m : script A) (k : A -> script B) (st : page) :
  (m ≫= k) st = match m st with
                | (Normal a, st') => k a st'
                | (Throw e, st') => (Throw e, st')
                end.
Proof. reflexivity. Qed.

Lemma preserves_mret {A X} (proj : page -> X) (a : A) : preserves proj (mret a).
Proof. intros st. reflexivity. Qed.

Lemma preserves_throw {A X} (proj : page -> X) (e : JS.exn) :
  preserves proj (@throw A e).
Proof. intros st. reflexivity. Qed.

Lemma preserves_bind {A B X} (proj : page -> X) (m : script A) (k : A -> script B) :
  preserves proj m -> (forall a, preserves proj (k a)) -> preserves proj (m ≫= k).
Proof.
  intros Hm Hk st. unfold run. rewrite bind_run.
  specialize (Hm st). unfold run in Hm.
  destruct (m st) as [[a|e] st']; cbn in *; [|exact Hm].
  rewrite <- Hm. apply Hk.
Qed.

Lemma preserves_try_catch {A X} (proj : page -> X) (body : script A)
  (handler : JS.exn -> script A) :
  preserves proj body -> (forall e, preserves proj (handler e)) ->
  preserves proj (try_catch body handler).
Proof.
  intros Hm Hk st. unfold run, try_catch.
  specialize (Hm st). unfold run in Hm.
  destruct (body st) as [[a|e] st']; cbn in *; [exact Hm|].
  rewrite <- Hm. apply Hk.
Qed.

Lemma preserves_mapM {A B X} (proj : page -> X) (f : A -> script B) (l : list A) :
  (forall a, preserves proj (f a)) -> preserves proj (mapM f l).
Proof.
  intros Hf. induction l as [|a l IH]; cbn [mapM].
  - apply preserves_mret.
  - apply preserves_bind; [apply Hf|]. intros b.
    apply preserves_bind; [exact IH|]. intros bs. apply preserves_mret.
Qed.

Lemma preserves_forEach {A X} (proj : page -> X) (f : A -> script unit) (l : list A) :
  (forall a, preserves proj (f a)) -> preserves proj (forEach l f).
Proof.
  intros Hf. induction l as [|a l IH]; cbn [forEach].
  - apply preserves_mret.
  - apply preserves_bind; [apply Hf|]. intros _. exact IH.
Qed.

(** What follows a script does not matter to a part of the page that it
    leaves alone. *)
Lemma to_number_run (v : JS.value) (st : page) :
  JS.convertible v = true -> to_number v st = (Normal (JS.ToNumber v), st).
Proof. intros H. unfold to_number. rewrite H. reflexivity. Qed.

Lemma to_number_throw (v : JS.value) (st : page) :
  JS.convertible v = false -> to_number v st = (Throw JS.not_convertible, st).
Proof. intros H. unfold to_number. rewrite H. reflexivity. Qed.

Lemma to_string_run (v : JS.value) (st : page) :
  JS.convertible v = true -> to_string v st = (Normal (JS.ToString v), st).
Proof. intros H. unfold to_string. rewrite H. reflexivity. Qed.

Lemma to_string_throw (v : JS.value) (st : page) :
  JS.convertible v = false -> to_string v st = (Throw JS.not_convertible, st).
Proof. intros H. unfold to_string. rewrite H. reflexivity. Qed.

(** What [p || 0] gives for a Number or a falsy [p] has a primitive. *)
Lemma convertible_or_number (p : float) :
  JS.convertible (JS.or (JS.VNum p) (JS.VNum 0)) = true.
Proof. unfold JS.or. destruct (JS.ToBoolean (JS.VNum p)); reflexivity. Qed.

Lemma convertible_or_falsy (v : JS.value) :
  JS.ToBoolean v = false -> JS.convertible (JS.or v (JS.VNum 0)) = true.
Proof. intros H. unfold JS.or. rewrite H. reflexivity. Qed.

Lemma after_bind {A B X} (proj : page -> X) (m : script A) (k : A -> script B)
  (st : page) :
  (forall a, preserves proj (k a)) -> proj (run (m ≫= k) st) = proj (run m st).
Proof.
  intros Hk. unfold run. rewrite bind_run.
  destruct (m st) as [[a|e] st']; cbn; [apply Hk|reflexivity].
Qed.

(** A primitive and a part of the page it does not write. *)
Ltac frame_prim :=
  let st := fresh "st" in
  intros st;
  unfold run, value_of, set_border, set_innerText, alert, console_log,
    set_logsChart, set_donutChart, set_barChart, get_page, fetch_json,
    setDonutCenter, to_string, to_number, with_texts, center_text, charts;
  cbn; repeat case_match; cbn;
  first [ reflexivity | rewrite lookup_insert_ne by done; reflexivity ].

(** [preserves] through the structure of a script. *)
Ltac frame :=
  repeat lazymatch goal with
    | |- preserves _ (mret _) => apply preserves_mret
    | |- preserves _ (throw _) => apply preserves_throw
    | |- preserves _ (mbind _ _) => apply preserves_bind; [|intros ?]
    | |- preserves _ (try_catch _ _) => apply preserves_try_catch; [|intros ?]
    | |- preserves _ (mapM _ _) => apply preserves_mapM; intros ?
    | |- preserves _ (forEach _ _) => apply preserves_forEach; intros ?
    | |- preserves _ (if ?b then _ else _) => destruct b
    | |- preserves _ (match ?x with _ => _ end) => destruct x
    | |- preserves _ (prop _ _) => unfold prop
    | |- preserves _ (Array_map _ _ _) => unfold Array_map
    | |- preserves _ (bar_color _ _) => unfold bar_color
    | |- preserves _ (updateBarChart _) => unfold updateBarChart
    | |- preserves _ (loadLogsChart _) => unfold loadLogsChart
    | |- preserves _ make_payload => unfold make_payload
    | |- preserves _ (on_answer _ _ _) => unfold on_answer
    | |- preserves _ _ => frame_prim
    end.

(** ** The validation loops *)

Lemma lookup_foldl_alter (f : input -> input) (l : list string)
  (m : gmap string input) (id : string) :
  NoDup l ->
  foldl (fun m id => alter f id m) m l !! id
  = if decide (id ∈ l) then f <$> m !! id else m !! id.
Proof.
  intros Hnd. revert m. induction Hnd as [|a l Ha Hnd IH]; intros m; cbn.
  - reflexivity.
  - rewrite IH. destruct (decide (id = a)) as [->|Hne].
    + rewrite decide_False by assumption. rewrite decide_True by left.
      apply lookup_alter_eq.
    + rewrite lookup_alter_ne by congruence.
      destruct (decide (id ∈ l)) as [Hin|Hnin].
      * rewrite decide_True by now right. reflexivity.
      * rewrite decide_False; [reflexivity|].
        intros [?|?]%elem_of_cons; contradiction.
Qed.

Lemma present_cons (m : gmap string input) (id : string) (l : list string) :
  present m (id :: l) = true <-> is_Some (m !! id) /\ present m l = true.
Proof.
  unfold present. cbn. rewrite andb_true_iff, bool_decide_eq_true. reflexivity.
Qed.

Lemma present_alter (g : input -> input) (m : gmap string input) (id : string)
  (l : list string) :
  present (alter g id m) l = present m l.
Proof.
  unfold present. induction l as [|j l IH]; cbn; [reflexivity|].
  rewrite IH. f_equal. apply bool_decide_ext. apply lookup_alter_is_Some.
Qed.

Lemma present_foldl_alter (g : input -> input) (l : list string)
  (m : gmap string input) (l' : list string) :
  present (foldl (fun m id => alter g id m) m l) l' = present m l'.
Proof.
  revert m. induction l as [|id l IH]; intros m; cbn; [reflexivity|].
  now rewrite IH, present_alter.
Qed.

Lemma filled_alter (g : input -> input) (m : gmap string input) (id : string)
  (l : list string) :
  (forall el, input_value (g el) = input_value el) ->
  filled (alter g id m) l = filled m l.
Proof.
  intros Hg. unfold filled. induction l as [|j l IH]; cbn; [reflexivity|].
  rewrite IH. f_equal. rewrite lookup_alter.
  destruct (decide (id = j)) as [->|]; [|reflexivity].
  destruct (m !! j); cbn; [rewrite Hg|]; reflexivity.
Qed.

Lemma filled_foldl_alter (g : input -> input) (l : list string)
  (m : gmap string input) (l' : list string) :
  (forall el, input_value (g el) = input_value el) ->
  filled (foldl (fun m id => alter g id m) m l) l' = filled m l'.
Proof.
  intros Hg. revert m. induction l as [|id l IH]; intros m; cbn; [reflexivity|].
  now rewrite IH, filled_alter.
Qed.

Lemma filled_present (m : gmap string input) (l : list string) :
  filled m l = true -> present m l = true.
Proof.
  unfold filled, present. induction l as [|id l IH]; cbn; [reflexivity|].
  intros [H1 H2]%andb_true_iff. rewrite IH by assumption.
  destruct (m !! id) eqn:E; [|discriminate].
  rewrite bool_decide_eq_true_2 by eauto. reflexivity.
Qed.

(** One empty field is enough for the form not to be filled. *)
Lemma filled_empty (m : gmap string input) (l : list string) (id : string) (el : input) :
  id ∈ l -> m !! id = Some el -> input_value el = "" -> filled m l = false.
Proof.
  intros Hin Hel Hv. unfold filled. induction Hin as [id l|id j l Hin IH]; cbn.
  - rewrite Hel, Hv. reflexivity.
  - rewrite IH by assumption. apply andb_false_r.
Qed.

Lemma set_border_run (id css : string) (st : page) (el : input) :
  inputs st !! id = Some el ->
  set_border id css st = (Normal tt, with_inputs (alter (restyle css) id) st).
Proof.
  intros H. unfold set_border, with_inputs. rewrite H.
  rewrite (alter_alt_Some _ _ _ _ H). reflexivity.
Qed.

(** The first loop. *)
Lemma forEach_set_border (css : string) (l : list string) : forall st,
  present (inputs st) l = true ->
  forEach l (fun id => set_border id css) st
  = (Normal tt,
     with_inputs (fun m => foldl (fun m id => alter (restyle css) id m) m l) st).
Proof.
  induction l as [|id l IH]; intros st Hp.
  - destruct st; reflexivity.
  - apply present_cons in Hp as [[el Hel] Hp]. cbn [forEach].
    rewrite bind_run, (set_border_run _ _ _ _ Hel), IH.
    + reflexivity.
    + cbn. now rewrite present_alter.
Qed.

(** The second loop, with the variable it assigns. *)
Lemma empty_check_run (l : list string) : forall allFilled st,
  present (inputs st) l = true ->
  empty_check l allFilled st
  = (Normal (allFilled && filled (inputs st) l),
     with_inputs (fun m => foldl (fun m id => alter mark id m) m l) st).
Proof.
  induction l as [|id l IH]; intros b st Hp.
  - destruct st; cbn. now rewrite andb_true_r.
  - apply present_cons in Hp as [[el Hel] Hp]. cbn [empty_check].
    rewrite bind_run. unfold value_of at 1. rewrite Hel.
    assert (Hm : alter mark id (inputs st)
                 = alter (restyle (if String.eqb (input_value el) ""
                                   then border_error else style_border el))
                         id (inputs st)).
    { rewrite !(alter_alt_Some _ _ _ _ Hel). unfold mark.
      destruct el as [v b0]; cbn. destruct (String.eqb v ""); reflexivity. }
    destruct (String.eqb (input_value el) "") eqn:E.
    + rewrite bind_run, (set_border_run _ _ _ _ Hel), IH
        by (cbn; now rewrite present_alter).
      cbn [filled forallb]. rewrite Hel, E. cbn [negb andb].
      rewrite andb_false_r. unfold with_inputs; cbn. now rewrite Hm.
    + rewrite IH by assumption. cbn [filled forallb]. rewrite Hel, E.
      unfold with_inputs; cbn. rewrite Hm, (alter_alt_Some _ _ _ _ Hel).
      rewrite insert_id by (destruct el; exact Hel). reflexivity.
Qed.

Lemma validate_run (st : page) :
  form_ok st = true ->
  validate st = (Normal (all_filled st), with_inputs validated st).
Proof.
  intros Hok. unfold validate. rewrite bind_run, forEach_set_border by exact Hok.
  rewrite empty_check_run
    by (unfold with_inputs; cbn [inputs]; rewrite present_foldl_alter; exact Hok).
  unfold with_inputs;
    cbn [inputs texts logsChart donutChart barChart alerts console requests].
  unfold all_filled. rewrite filled_foldl_alter by reflexivity. reflexivity.
Qed.

Lemma ids_NoDup : NoDup ids.
Proof. apply (bool_decide_unpack (NoDup ids)). vm_compute. exact I. Qed.

Lemma lookup_validated (m : gmap string input) (id : string) :
  validated m !! id = if decide (id ∈ ids) then styled <$> m !! id else m !! id.
Proof.
  unfold validated. rewrite !lookup_foldl_alter by exact ids_NoDup.
  destruct (decide (id ∈ ids)); [|reflexivity].
  destruct (m !! id) as [[v b]|]; [|reflexivity]. cbn.
  unfold mark, styled, restyle. cbn. destruct (String.eqb v ""); reflexivity.
Qed.

(** With a field missing or empty, [onPredict] stops after the warning. *)
Lemma onPredict_not_filled (server : request -> reply) (st : page) :
  form_ok st = true -> all_filled st = false ->
  onPredict server st
  = (Normal tt,
     Page (validated (inputs st)) (texts st) (logsChart st) (donutChart st)
          (barChart st) (alerts st ++ ["⚠ Please fill all fields."])
          (console st) (requests st)).
Proof.
  intros Hok Hf. unfold onPredict. rewrite bind_run, validate_run, Hf by exact Hok.
  reflexivity.
Qed.

Lemma make_payload_run (st : page) :
  present (inputs st) ids = true ->
  make_payload st = (Normal (payload_of (inputs st)), st).
Proof.
  unfold make_payload, payload_of. generalize ids.
  induction l as [|id l IH]; intros Hp; [reflexivity|].
  apply present_cons in Hp as [[el Hel] Hp]. cbn [mapM fmap list_fmap].
  rewrite !bind_run. unfold value_of at 1. rewrite Hel. cbn.
  rewrite bind_run, IH by assumption. reflexivity.
Qed.

(** With every field filled, [onPredict] posts the payload and handles
    the answer. *)
Lemma onPredict_filled (server : request -> reply) (st : page) :
  all_filled st = true ->
  onPredict server st
  = try_catch
      (answer ← fetch_json server (POST "/predict" (payload_of (inputs st)));
       on_answer server (payload_of (inputs st)) answer)
      (fun err => alert ("Communication Error: " +:+ JS.exn_toString err))
      (with_inputs validated st).
Proof.
  intros Hf. pose proof (filled_present _ _ Hf) as Hok.
  unfold onPredict. rewrite bind_run, validate_run, Hf by exact Hok. cbn [negb].
  rewrite bind_run, make_payload_run.
  - change (inputs (with_inputs validated st)) with (validated (inputs st)).
    assert (E : payload_of (validated (inputs st)) = payload_of (inputs st)).
    { unfold payload_of. apply list_fmap_ext. intros _ id _.
      rewrite lookup_validated. destruct (decide (id ∈ ids)); [|reflexivity].
      destruct (inputs st !! id); reflexivity. }
    rewrite E. reflexivity.
  - unfold with_inputs; cbn [inputs]. unfold validated.
    rewrite !present_foldl_alter. exact Hok.
Qed.

(** ** The bar chart *)

Lemma bar_colors_updateBarChart (values : list (string * JS.value)) (st : page) :
  bar_colors (run (updateBarChart values) st) = color_for values <$> ranges.
Proof. reflexivity. Qed.

(** The bounds of [ranges] are Numbers, the lower one below the upper one. *)
Lemma ranges_bounds :
  Forall (fun entry => is_nan entry.2.1 = false /\ is_nan entry.2.2 = false
                       /\ (entry.2.1 <=? entry.2.2)%float = true) ranges.
Proof. repeat constructor. Qed.

(** The colour of the [i]-th bar, for a submitted Number or NaN. *)
Lemma bar_color_at (values : list (string * JS.value)) (st : page)
  (i : nat) (key : string) (min max v : float) :
  ranges !! i = Some (key, (min, max)) ->
  JS.lookup_prop key values = JS.VNum v ->
  bar_colors (run (updateBarChart values) st) !! i
  = Some (if (v <? min)%float || (max <? v)%float then red else green).
Proof.
  intros Hi Hv. rewrite bar_colors_updateBarChart, list_lookup_fmap, Hi.
  cbn. unfold color_for. cbn. rewrite Hv. reflexivity.
Qed.

(** C1: for every sensor key and every submitted Number,
    [updateBarChart] colours the bar of that key red exactly when the value
    is below [min] or above [max], and green when it lies between them,
    bounds included: at [min] and at [max] themselves the bar is green.  For
    a Number other than NaN, green is exactly the values within the bounds. *)
Theorem updateBarChart_colors
  (values : list (string * JS.value)) (st : page)
  (i : nat) (key : string) (min max v : float) :
  ranges !! i = Some (key, (min, max)) ->
  JS.lookup_prop key values = JS.VNum v ->
  let color := bar_colors (run (updateBarChart values) st) !! i in
  (color = Some red <-> (v <? min)%float = true \/ (max <? v)%float = true) /\
  ((min <=? v)%float = true /\ (v <=? max)%float = true -> color = Some green) /\
  (v = min \/ v = max -> color = Some green) /\
  (is_nan v = false ->
   color = Some green -> (min <=? v)%float = true /\ (v <=? max)%float = true).
Proof.
  intros Hi Hv color.
  pose proof (bar_color_at values st i key min max v Hi Hv) as Hc.
  fold color in Hc.
  pose proof ranges_bounds as Hr. rewrite Forall_lookup in Hr.
  destruct (Hr _ _ Hi) as (Hmin & Hmax & Hle). cbn in Hmin, Hmax, Hle.
  assert (Hin : is_nan v = false ->
                (min <=? v)%float && (v <=? max)%float
                = negb ((v <? min)%float || (max <? v)%float)).
  { intros Hnan.
    rewrite (FloatFacts.leb_negb_ltb min v), (FloatFacts.leb_negb_ltb v max)
      by assumption.
    now rewrite negb_orb. }
  assert (Hwithin : (min <=? v)%float = true /\ (v <=? max)%float = true ->
                    color = Some green).
  { intros [H1 H2]. destruct (is_nan v) eqn:Hnan.
    - rewrite (FloatFacts.leb_nan_r min v Hnan) in H1. discriminate.
    - specialize (Hin eq_refl). rewrite H1, H2 in Hin. cbn in Hin.
      rewrite Hc. destruct ((v <? min)%float || (max <? v)%float);
        [discriminate|reflexivity]. }
  split; [|split; [|split]].
  - rewrite <- orb_true_iff, Hc.
    destruct ((v <? min)%float || (max <? v)%float); cbn;
      split; intros H; try reflexivity; discriminate.
  - exact Hwithin.
  - intros [-> | ->]; apply Hwithin;
      (split; [|]); first [ apply FloatFacts.leb_refl; assumption | exact Hle ].
  - intros Hnan Hg. apply andb_true_iff. rewrite (Hin Hnan).
    rewrite Hc in Hg.
    destruct ((v <? min)%float || (max <? v)%float); [discriminate|reflexivity].
Qed.

(** C1 at a concrete form: a flow of 200 is above [140, 180] and its bar
    is red; 30 degrees is within [25, 45] and its bar is green. *)
Lemma updateBarChart_colors_witness :
  let values := payload_of (inputs (page_with readings)) in
  let st := page_with readings in
  (ranges !! 2%nat = Some ("flow", (140, 180)%float) /\
   JS.lookup_prop "flow" values = JS.VNum 200) /\
  (ranges !! 0%nat = Some ("temp", (25, 45)%float) /\
   JS.lookup_prop "temp" values = JS.VNum 30) /\
  bar_colors (run (updateBarChart values) st) !! 2%nat = Some red /\
  bar_colors (run (updateBarChart values) st) !! 0%nat = Some green.
Proof.
  intros values st. split; [repeat split|]. split; [repeat split|]. split.
  - apply (proj1 (updateBarChart_colors values st 2 "flow" 140 180 200
                    eq_refl eq_refl)).
    right. reflexivity.
  - apply (proj1 (proj2 (updateBarChart_colors values st 0 "temp" 25 45 30
                           eq_refl eq_refl))).
    split; reflexivity.
Defined.

(** C8: for every sensor key whose submitted value is NaN, both
    comparisons [v < min] and [v > max] are false and [updateBarChart]
    colours the bar green, although NaN is not within [min, max]. *)
Theorem updateBarChart_nan_green
  (values : list (string * JS.value)) (st : page)
  (i : nat) (key : string) (min max v : float) :
  ranges !! i = Some (key, (min, max)) ->
  JS.lookup_prop key values = JS.VNum v ->
  is_nan v = true ->
  bar_colors (run (updateBarChart values) st) !! i = Some green /\
  (v <? min)%float = false /\ (max <? v)%float = false /\
  ((min <=? v)%float && (v <=? max)%float = false).
Proof.
  intros Hi Hv Hnan.
  rewrite (bar_color_at values st i key min max v Hi Hv).
  rewrite (FloatFacts.ltb_nan_l v min Hnan), (FloatFacts.ltb_nan_r max v Hnan).
  rewrite (FloatFacts.leb_nan_r min v Hnan). repeat split.
Qed.

(** C8 at a concrete form: the text "abc" in the fill-height field is
    coerced to NaN, and the bar is green. *)
Lemma updateBarChart_nan_green_witness :
  let values := payload_of (inputs (page_with readings)) in
  let st := page_with readings in
  (ranges !! 4%nat = Some ("fillheight", (245, 255)%float) /\
   JS.lookup_prop "fillheight" values = JS.VNum (JS.StringToNumber "abc") /\
   is_nan (JS.StringToNumber "abc") = true) /\
  bar_colors (run (updateBarChart values) st) !! 4%nat = Some green.
Proof.
  intros values st. split; [repeat split|].
  apply (updateBarChart_nan_green values st 4 "fillheight" 245 255
           (JS.StringToNumber "abc") eq_refl eq_refl eq_refl).
Defined.

(** ** The validation in [onPredict] *)

Lemma onPredict_inputs (server : request -> reply) (st : page) :
  form_ok st = true ->
  inputs (run (onPredict server) st) = validated (inputs st).
Proof.
  intros Hok. unfold onPredict.
  rewrite (after_bind inputs).
  - unfold run. rewrite validate_run by exact Hok. reflexivity.
  - intros allFilled. frame.
Qed.

(** C7: on every invocation the validation first resets the border of
    each of the eight fields and only then gives the error border to the
    empty ones: after the first loop every field has the reset border, and
    when [onPredict] is done a field has the error border if it is empty and
    the reset border otherwise, whatever border it had before. *)
Theorem onPredict_borders (server : request -> reply) (st : page)
  (id : string) (el : input) :
  form_ok st = true ->
  id ∈ ids ->
  inputs st !! id = Some el ->
  inputs (run (forEach ids (fun id => set_border id border_reset)) st) !! id
  = Some (Input (input_value el) border_reset) /\
  inputs (run (onPredict server) st) !! id
  = Some (Input (input_value el)
                (if String.eqb (input_value el) "" then border_error
                 else border_reset)).
Proof.
  intros Hok Hin Hel. split.
  - unfold run. rewrite forEach_set_border by exact Hok. cbn [snd with_inputs inputs].
    rewrite lookup_foldl_alter by exact ids_NoDup.
    rewrite decide_True by exact Hin. rewrite Hel. reflexivity.
  - rewrite onPredict_inputs by exact Hok. rewrite lookup_validated.
    rewrite decide_True by exact Hin. rewrite Hel. reflexivity.
Qed.

(** C7 at a concrete page: the temperature field, marked by an earlier
    submission and now holding "30", ends with the reset border. *)
Lemma onPredict_borders_witness :
  let st := marked_page readings in
  let server := serving (Json JS.VNull) two_logs in
  (form_ok st = true /\ "temp" ∈ ids /\
   inputs st !! "temp" = Some (Input "30" border_error)) /\
  inputs (run (onPredict server) st) !! "temp" = Some (Input "30" border_reset).
Proof.
  intros st server.
  assert (Hin : "temp" ∈ ids) by (unfold ids; apply list_elem_of_here).
  split; [repeat split; exact Hin|].
  exact (proj2 (onPredict_borders server st "temp" (Input "30" border_error)
                  eq_refl Hin eq_refl)).
Defined.

(** C2: whenever one of the eight fields is empty, [onPredict] issues no
    request (the requests recorded are those recorded before), shows the
    warning, and leaves every empty field, not only the first, with the
    error border. *)
Theorem onPredict_empty_field (server : request -> reply) (st : page)
  (id0 : string) (el0 : input) :
  form_ok st = true ->
  id0 ∈ ids ->
  inputs st !! id0 = Some el0 ->
  input_value el0 = "" ->
  let st' := run (onPredict server) st in
  requests st' = requests st /\
  alerts st' = (alerts st ++ ["⚠ Please fill all fields."])%list /\
  (forall id el,
     id ∈ ids -> inputs st !! id = Some el -> input_value el = "" ->
     inputs st' !! id = Some (Input "" border_error)).
Proof.
  intros Hok Hin0 Hel0 Hv0 st'.
  assert (Hf : all_filled st = false) by exact (filled_empty _ _ _ _ Hin0 Hel0 Hv0).
  unfold st', run. rewrite onPredict_not_filled by assumption.
  cbn [snd requests alerts inputs]. repeat split.
  intros id el Hin Hel Hv. rewrite lookup_validated.
  rewrite decide_True by exact Hin. rewrite Hel. cbn.
  unfold styled. rewrite Hv. reflexivity.
Qed.

(** C2 at a concrete page: with the pressure and fill-height fields empty,
    no request is recorded and both fields carry the error border. *)
Lemma onPredict_empty_field_witness :
  let st := page_with partial_readings in
  let server := serving (Json JS.VNull) two_logs in
  (form_ok st = true /\ "pressure" ∈ ids /\
   inputs st !! "pressure" = Some (Input "" "") /\ input_value (Input "" "") = "") /\
  requests (run (onPredict server) st) = [] /\
  inputs (run (onPredict server) st) !! "fillheight" = Some (Input "" border_error).
Proof.
  intros st server.
  assert (Hin : "pressure" ∈ ids)
    by (unfold ids; apply list_elem_of_further, list_elem_of_here).
  assert (Hin' : "fillheight" ∈ ids)
    by (unfold ids; do 4 apply list_elem_of_further; apply list_elem_of_here).
  split; [repeat split; exact Hin|].
  pose proof (onPredict_empty_field server st "pressure" (Input "" "")
                eq_refl Hin eq_refl eq_refl) as (Hreq & _ & Hmark).
  split; [exact Hreq|].
  exact (Hmark "fillheight" (Input "" "") Hin' eq_refl eq_refl).
Defined.

(** ** The line chart *)

(** [array.map] with a callback that only computes. *)
Lemma mapM_pure {A B C} (R : A -> C -> Prop) (f : A -> script B) (g : C -> B)
  (l : list A) (l' : list C) (st : page) :
  Forall2 R l l' ->
  (forall a c, R a c -> f a st = (Normal (g c), st)) ->
  mapM f l st = (Normal (g <$> l'), st).
Proof.
  intros HR Hf. induction HR as [|a c l l' Hac HR IH]; [reflexivity|].
  cbn [mapM]. rewrite bind_run, (Hf _ _ Hac), bind_run, IH. reflexivity.
Qed.

Lemma prop_run (v : JS.value) (name : string) (x : JS.value) (st : page) :
  JS.get v name = inr x -> prop v name st = (Normal x, st).
Proof. intros H. unfold prop. rewrite H. reflexivity. Qed.

(** The page [loadLogsChart] leaves when [/logs] answers with entries. *)
Lemma loadLogsChart_run (server : request -> reply) (st : page)
  (elems : list JS.value) (entries : list (string * float)) :
  server (GET "/logs") = Json (JS.VArr elems) ->
  Forall2 is_log_entry elems entries ->
  loadLogsChart server st
  = (Normal tt,
     Page (inputs st) (texts st)
          (Chart ((fun entry => JS.VStr entry.1) <$> entries)
                 ((fun entry => JS.VNum (JS.Math_round (entry.2 * 100))) <$> entries)
                 (backgroundColor (logsChart st)))
          (donutChart st) (barChart st) (alerts st) (console st)
          (requests st ++ [GET "/logs"])).
Proof.
  intros Hs He. unfold loadLogsChart, try_catch.
  rewrite bind_run. unfold fetch_json at 1. rewrite Hs.
  rewrite bind_run. unfold Array_map at 1.
  rewrite (mapM_pure is_log_entry _ (fun entry => JS.VStr entry.1) elems entries)
    by (try exact He; intros a c [Ht _]; now apply prop_run).
  rewrite bind_run. unfold get_page at 1.
  rewrite bind_run. unfold set_logsChart at 1.
  rewrite bind_run. unfold Array_map at 1.
  rewrite (mapM_pure is_log_entry _
             (fun entry => JS.VNum (JS.Math_round (entry.2 * 100))) elems entries).
  - reflexivity.
  - exact He.
  - intros a c [_ Hp]. rewrite bind_run, (prop_run _ _ _ _ Hp). reflexivity.
Qed.

(** C5: for every sequence of log entries that [/logs] returns,
    [loadLogsChart] sets the labels of the line chart to the timestamp
    strings as they came, in order, and the data to each probability times
    100 rounded by [Math.round]; both replace what the chart held.  In
    particular the entries ("t1", 0.1) and ("t2", 0.5) give the labels
    ["t1", "t2"] and the data [10, 50]. *)
Theorem loadLogsChart_replaces (server : request -> reply) (st : page)
  (elems : list JS.value) (entries : list (string * float)) :
  server (GET "/logs") = Json (JS.VArr elems) ->
  Forall2 is_log_entry elems entries ->
  let st' := run (loadLogsChart server) st in
  labels (logsChart st') = (fun entry => JS.VStr entry.1) <$> entries /\
  data (logsChart st')
  = (fun entry => JS.VNum (JS.Math_round (entry.2 * 100))) <$> entries /\
  (entries = [("t1", 0.1%float); ("t2", 0.5%float)] ->
   labels (logsChart st') = [JS.VStr "t1"; JS.VStr "t2"] /\
   data (logsChart st') = [JS.VNum 10; JS.VNum 50]).
Proof.
  intros Hs He st'. unfold st', run.
  rewrite (loadLogsChart_run server st elems entries Hs He).
  cbn [snd logsChart labels data].
  split; [reflexivity|split; [reflexivity|]]. intros ->. split; reflexivity.
Qed.

(** C5 at a concrete page: a chart that already shows two points is
    given the two entries of the answer, and nothing of what it showed
    remains. *)
Lemma loadLogsChart_replaces_witness :
  let server := serving (Json JS.VNull) two_logs in
  let st := run (loadLogsChart server) (page_with readings) in
  (server (GET "/logs") = Json (JS.VArr [log_entry "t1" 0.1; log_entry "t2" 0.5]) /\
   Forall2 is_log_entry [log_entry "t1" 0.1; log_entry "t2" 0.5]
           [("t1", 0.1%float); ("t2", 0.5%float)]) /\
  labels (logsChart (run (loadLogsChart server) st)) = [JS.VStr "t1"; JS.VStr "t2"] /\
  data (logsChart (run (loadLogsChart server) st)) = [JS.VNum 10; JS.VNum 50].
Proof.
  intros server st.
  assert (He : Forall2 is_log_entry [log_entry "t1" 0.1; log_entry "t2" 0.5]
                       [("t1", 0.1%float); ("t2", 0.5%float)])
    by (repeat constructor).
  split; [split; [reflexivity|exact He]|].
  exact (proj2 (proj2 (loadLogsChart_replaces server st _ _ eq_refl He)) eq_refl).
Defined.

(** The page [loadLogsChart] leaves when the fetch of [/logs] fails. *)
Lemma loadLogsChart_rejected (server : request -> reply) (st : page) (e : JS.exn) :
  server (GET "/logs") = Rejected e ->
  loadLogsChart server st
  = (Normal tt,
     Page (inputs st) (texts st) (logsChart st) (donutChart st) (barChart st)
          (alerts st) (console st ++ ["Log fetch error: " +:+ JS.exn_toString e])
          (requests st ++ [GET "/logs"])).
Proof.
  intros Hs. unfold loadLogsChart, try_catch.
  rewrite bind_run. unfold fetch_json at 1. rewrite Hs. reflexivity.
Qed.

(** C6: whenever the fetch of [/logs] fails (no answer, or an answer
    that is not JSON), [loadLogsChart] writes one line to the console and
    nothing else: no dialog, no text on the page, the one request it
    issued and no other, and the three charts, the line chart among them,
    as they were. *)
Theorem loadLogsChart_failure (server : request -> reply) (st : page) (e : JS.exn) :
  server (GET "/logs") = Rejected e ->
  let st' := run (loadLogsChart server) st in
  console st' = (console st ++ ["Log fetch error: " +:+ JS.exn_toString e])%list /\
  alerts st' = alerts st /\
  texts st' = texts st /\
  inputs st' = inputs st /\
  requests st' = (requests st ++ [GET "/logs"])%list /\
  logsChart st' = logsChart st /\
  donutChart st' = donutChart st /\
  barChart st' = barChart st.
Proof.
  intros Hs st'. unfold st', run.
  rewrite (loadLogsChart_rejected server st e Hs). cbn. repeat split.
Qed.

(** C6 at a concrete page: the line chart loaded before the failure still
    shows its two points. *)
Lemma loadLogsChart_failure_witness :
  let down := serving (Json JS.VNull) (Rejected (JS.TypeError "Failed to fetch")) in
  let st := run (loadLogsChart (serving (Json JS.VNull) two_logs)) (page_with readings) in
  down (GET "/logs") = Rejected (JS.TypeError "Failed to fetch") /\
  data (logsChart (run (loadLogsChart down) st)) = [JS.VNum 10; JS.VNum 50] /\
  alerts (run (loadLogsChart down) st) = [] /\
  console (run (loadLogsChart down) st) = ["Log fetch error: TypeError: Failed to fetch"].
Proof.
  intros down st. split; [reflexivity|].
  pose proof (loadLogsChart_failure down st _ eq_refl)
    as (Hc & Ha & _ & _ & _ & Hl & _).
  split; [|split].
  - rewrite Hl. reflexivity.
  - rewrite Ha. reflexivity.
  - rewrite Hc. reflexivity.
Defined.

(** ** The answer of [/predict] *)

Lemma after_try_catch {A X} (proj : page -> X) (body : script A)
  (handler : JS.exn -> script A) (st : page) :
  (forall e, preserves proj (handler e)) ->
  proj (run (try_catch body handler) st) = proj (run body st).
Proof.
  intros Hh. unfold run, try_catch.
  destruct (body st) as [[a|e] st']; cbn; [reflexivity|apply Hh].
Qed.

(** With the form filled and [/predict] answered, what [onPredict]
    leaves of a part of the page that dialogs do not touch is what the
    handling of the answer leaves of it. *)
Lemma onPredict_answered {X} (proj : page -> X) (server : request -> reply)
  (st : page) (answer : JS.value) :
  (forall msg, preserves proj (alert msg)) ->
  all_filled st = true ->
  server (POST "/predict" (payload_of (inputs st))) = Json answer ->
  proj (run (onPredict server) st)
  = proj (run (on_answer server (payload_of (inputs st)) answer) (asked st)).
Proof.
  intros Hal Hf Hs. unfold run at 1. rewrite onPredict_filled by exact Hf.
  fold (run (try_catch
               (answer ← fetch_json server (POST "/predict" (payload_of (inputs st)));
                on_answer server (payload_of (inputs st)) answer)
               (fun err => alert ("Communication Error: " +:+ JS.exn_toString err)))
            (with_inputs validated st)).
  rewrite after_try_catch by (intros e; apply Hal).
  unfold run. rewrite bind_run. unfold fetch_json at 1. rewrite Hs. reflexivity.
Qed.

(** The donut after an answer without a truthy [error]. *)
Lemma on_answer_donut (server : request -> reply)
  (payload : list (string * JS.value)) (answer err probability : JS.value)
  (st : page) :
  JS.get answer "error" = inr err ->
  JS.ToBoolean err = false ->
  JS.get answer "probability" = inr probability ->
  JS.convertible (JS.or probability (JS.VNum 0)) = true ->
  let st' := run (on_answer server payload answer) st in
  let probPercent := probPercent_of probability in
  donutChart st'
  = Chart (labels (donutChart st))
          [JS.VNum (100 - probPercent); JS.VNum probPercent]
          (backgroundColor (donutChart st)) /\
  center_text st'
  = (fun _ => JS.Number_toString probPercent +:+ "%") <$> center_text st.
Proof.
  intros He Hb Hp Hc st' pp. unfold st', on_answer.
  split.
  - unfold run. rewrite bind_run, (prop_run _ _ _ _ He), Hb.
    rewrite bind_run, (prop_run _ _ _ _ Hp).
    rewrite bind_run, (to_number_run _ _ Hc).
    rewrite bind_run. unfold get_page at 1.
    match goal with
    | |- donutChart (snd ((?m ≫= ?k) st)) = _ =>
        change (donutChart (run (m ≫= k) st) = Chart (labels (donutChart st))
                  [JS.VNum (100 - pp); JS.VNum pp] (backgroundColor (donutChart st)));
        rewrite (after_bind donutChart m k st)
    end.
    + reflexivity.
    + intros _. frame.
  - unfold run. rewrite bind_run, (prop_run _ _ _ _ He), Hb.
    rewrite bind_run, (prop_run _ _ _ _ Hp).
    rewrite bind_run, (to_number_run _ _ Hc).
    rewrite bind_run. unfold get_page at 1.
    rewrite bind_run. unfold set_donutChart at 1.
    match goal with
    | |- center_text (snd ((?m ≫= ?k) ?st1)) = _ =>
        change (center_text (run (m ≫= k) st1)
                = (fun _ => JS.Number_toString pp +:+ "%") <$> center_text st);
        rewrite (after_bind center_text m k st1)
    end.
    + unfold run, setDonutCenter, center_text. cbn [texts].
      destruct (texts st !! "donutCenter") eqn:E; cbn [snd fmap option_fmap option_map].
      * apply lookup_insert_eq.
      * exact E.
    + intros _. frame.
Qed.

Lemma alert_donutChart (msg : string) : preserves donutChart (alert msg).
Proof. frame. Qed.

Lemma alert_center_text (msg : string) : preserves center_text (alert msg).
Proof. frame. Qed.

(** The donut [onPredict] leaves after a successful answer. *)
Lemma onPredict_donut_run (server : request -> reply) (st : page)
  (answer err probability : JS.value) :
  all_filled st = true ->
  server (POST "/predict" (payload_of (inputs st))) = Json answer ->
  JS.get answer "error" = inr err ->
  JS.ToBoolean err = false ->
  JS.get answer "probability" = inr probability ->
  JS.convertible (JS.or probability (JS.VNum 0)) = true ->
  let st' := run (onPredict server) st in
  let probPercent := probPercent_of probability in
  donutChart st'
  = Chart (labels (donutChart st))
          [JS.VNum (100 - probPercent); JS.VNum probPercent]
          (backgroundColor (donutChart st)) /\
  center_text st'
  = (fun _ => JS.Number_toString probPercent +:+ "%") <$> center_text st.
Proof.
  intros Hf Hs He Hb Hp Hc st' pp. unfold st'.
  rewrite (onPredict_answered donutChart server st answer alert_donutChart Hf Hs).
  rewrite (onPredict_answered center_text server st answer alert_center_text Hf Hs).
  exact (on_answer_donut server _ answer err probability (asked st) He Hb Hp Hc).
Qed.

(** [p || 0] is [p] itself unless [p] is a zero. *)
Lemma probPercent_of_number (p : float) :
  is_nan p = false ->
  SameValueZero (probPercent_of (JS.VNum p)) (JS.Math_round (p * 100)) /\
  (100 - probPercent_of (JS.VNum p) = 100 - JS.Math_round (p * 100))%float /\
  JS.Number_toString (probPercent_of (JS.VNum p))
  = JS.Number_toString (JS.Math_round (p * 100)).
Proof.
  intros Hnan. unfold probPercent_of, JS.or, JS.ToBoolean. rewrite Hnan, orb_false_r.
  destruct (is_zero p) eqn:Hz; cbn [negb JS.ToNumber].
  - destruct (FloatFacts.is_zero_cases p Hz) as [-> | ->].
    + repeat split. left. reflexivity.
    + repeat split. right. split; reflexivity.
  - repeat split. left. reflexivity.
Qed.

(** C3: for every successful answer of [/predict] whose probability [p]
    lies in [0, 1], [onPredict] derives [probPercent = Math.round(p * 100)]
    (up to the sign of a zero), an integer from 0 to 100, sets the data of
    the donut to the two slices [100 - probPercent, probPercent], and sets
    the text of the centre element to [probPercent] followed by "%"; in
    particular [p = 0.42] gives the slices [58, 42] and the text "42%". *)
Theorem onPredict_donut (server : request -> reply) (st : page)
  (answer err : JS.value) (p : float) (old : string) :
  all_filled st = true ->
  server (POST "/predict" (payload_of (inputs st))) = Json answer ->
  JS.get answer "error" = inr err ->
  JS.ToBoolean err = false ->
  JS.get answer "probability" = inr (JS.VNum p) ->
  (0 <=? p)%float = true ->
  (p <=? 1)%float = true ->
  center_text st = Some old ->
  let st' := run (onPredict server) st in
  (exists probPercent : float,
     SameValueZero probPercent (JS.Math_round (p * 100)) /\
     (exists n : Z, 0 <= n <= 100 /\ probPercent = JS.of_Z n) /\
     data (donutChart st') = [JS.VNum (100 - probPercent); JS.VNum probPercent] /\
     center_text st' = Some (JS.Number_toString probPercent +:+ "%")) /\
  (p = 0.42%float ->
   data (donutChart st') = [JS.VNum 58; JS.VNum 42] /\
   center_text st' = Some "42%").
Proof.
  intros Hf Hs He Hb Hp H0 H1 Hc st'.
  destruct (onPredict_donut_run server st answer err (JS.VNum p) Hf Hs He Hb Hp
              (convertible_or_number p))
    as [Hd Ht].
  fold st' in Hd, Ht. rewrite Hc in Ht. cbn in Ht.
  split.
  - exists (probPercent_of (JS.VNum p)). rewrite Hd, Ht. cbn [data].
    assert (Hnan : is_nan p = false).
    { destruct (is_nan p) eqn:E; [|reflexivity].
      rewrite (FloatFacts.leb_nan_r 0 p E) in H0. discriminate. }
    destruct (probPercent_of_number p Hnan) as (Hsame & _ & _).
    split; [exact Hsame|]. split; [exact (probPercent_of_range p H0 H1)|].
    split; reflexivity.
  - intros ->. rewrite Hd, Ht. split; reflexivity.
Qed.

(** C3 at a concrete page: the readings are posted, the server answers
    with the probability 0.42, and the donut shows [58, 42] around "42%". *)
Lemma onPredict_donut_witness :
  let st := loaded readings in
  let server := serving (Json (prediction 0.42)) two_logs in
  (all_filled st = true /\
   server (POST "/predict" (payload_of (inputs st))) = Json (prediction 0.42) /\
   JS.get (prediction 0.42) "error" = inr JS.VUndefined /\
   JS.ToBoolean JS.VUndefined = false /\
   JS.get (prediction 0.42) "probability" = inr (JS.VNum 0.42) /\
   (0 <=? 0.42)%float = true /\ (0.42 <=? 1)%float = true /\
   center_text st = Some "0%") /\
  data (donutChart (run (onPredict server) st)) = [JS.VNum 58; JS.VNum 42] /\
  center_text (run (onPredict server) st) = Some "42%".
Proof.
  intros st server. split; [repeat split|].
  exact (proj2 (onPredict_donut server st (prediction 0.42) JS.VUndefined 0.42 "0%"
                  eq_refl eq_refl eq_refl eq_refl eq_refl eq_refl eq_refl eq_refl)
               eq_refl).
Defined.

(** C9: for every successful answer of [/predict] whose probability is
    falsy (absent, hence [undefined], or [null], [false], a zero, NaN or the
    empty string), [probPercent] is 0: the data of the donut is set to
    [100, 0] and the text of the centre element to "0%", and no NaN reaches
    the chart. *)
Theorem onPredict_falsy_probability (server : request -> reply) (st : page)
  (answer err probability : JS.value) (old : string) :
  all_filled st = true ->
  server (POST "/predict" (payload_of (inputs st))) = Json answer ->
  JS.get answer "error" = inr err ->
  JS.ToBoolean err = false ->
  JS.get answer "probability" = inr probability ->
  JS.ToBoolean probability = false ->
  center_text st = Some old ->
  let st' := run (onPredict server) st in
  probPercent_of probability = 0%float /\
  data (donutChart st') = [JS.VNum 100; JS.VNum 0] /\
  center_text st' = Some "0%".
Proof.
  intros Hf Hs He Hb Hp Hfalsy Hc st'.
  destruct (onPredict_donut_run server st answer err probability Hf Hs He Hb Hp
              (convertible_or_falsy probability Hfalsy))
    as [Hd Ht].
  fold st' in Hd, Ht. rewrite Hc in Ht. cbn in Ht.
  assert (E : probPercent_of probability = 0%float).
  { unfold probPercent_of, JS.or. rewrite Hfalsy. reflexivity. }
  rewrite Hd, Ht, E. repeat split.
Qed.

(** The falsy values a probability can be. *)
Lemma falsy_probabilities :
  JS.get no_probability "probability" = inr JS.VUndefined /\
  Forall (fun v => JS.ToBoolean v = false)
         [JS.VUndefined; JS.VNull; JS.VBool false; JS.VNum 0; JS.VNum (-0);
          JS.VNum nan; JS.VStr ""].
Proof. split; [reflexivity|]. repeat constructor. Qed.

(** C9 at a concrete page: the donut shows [58, 42]; an answer without a
    probability brings it back to [100, 0] around "0%". *)
Lemma onPredict_falsy_probability_witness :
  let st := run (onPredict (serving (Json (prediction 0.42)) two_logs)) (loaded readings) in
  let server := serving (Json no_probability) two_logs in
  (all_filled st = true /\
   server (POST "/predict" (payload_of (inputs st))) = Json no_probability /\
   JS.get no_probability "error" = inr JS.VUndefined /\
   JS.ToBoolean JS.VUndefined = false /\
   JS.get no_probability "probability" = inr JS.VUndefined /\
   center_text st = Some "42%") /\
  data (donutChart (run (onPredict server) st)) = [JS.VNum 100; JS.VNum 0] /\
  center_text (run (onPredict server) st) = Some "0%".
Proof.
  intros st server. split; [repeat split|].
  exact (proj2 (onPredict_falsy_probability server st no_probability JS.VUndefined
                  JS.VUndefined "42%"
                  eq_refl eq_refl eq_refl eq_refl eq_refl eq_refl eq_refl)).
Defined.

(** ** Errors reported by the server *)

(** The page [onPredict] leaves when the answer has a truthy [error]
    that converts to a string. *)
Lemma onPredict_error_run (server : request -> reply) (st : page)
  (answer err : JS.value) :
  all_filled st = true ->
  server (POST "/predict" (payload_of (inputs st))) = Json answer ->
  JS.get answer "error" = inr err ->
  JS.ToBoolean err = true ->
  JS.convertible err = true ->
  onPredict server st
  = (Normal tt,
     Page (validated (inputs st)) (texts st) (logsChart st) (donutChart st)
          (barChart st) (alerts st ++ ["Server Error: " +:+ JS.ToString err])
          (console st)
          (requests st ++ [POST "/predict" (payload_of (inputs st))])).
Proof.
  intros Hf Hs He Hb Hc. rewrite onPredict_filled by exact Hf.
  unfold try_catch. rewrite bind_run. unfold fetch_json at 1. rewrite Hs.
  unfold on_answer. rewrite bind_run, (prop_run _ _ _ _ He), Hb.
  rewrite bind_run, to_string_run by exact Hc. reflexivity.
Qed.

(** The page it leaves when the truthy [error] does not convert: the
    concatenation throws, and the [catch] shows its own dialog. *)
Lemma onPredict_error_throw_run (server : request -> reply) (st : page)
  (answer err : JS.value) :
  all_filled st = true ->
  server (POST "/predict" (payload_of (inputs st))) = Json answer ->
  JS.get answer "error" = inr err ->
  JS.ToBoolean err = true ->
  JS.convertible err = false ->
  onPredict server st
  = (Normal tt,
     Page (validated (inputs st)) (texts st) (logsChart st) (donutChart st)
          (barChart st)
          (alerts st ++ ["Communication Error: " +:+ JS.exn_toString JS.not_convertible])
          (console st)
          (requests st ++ [POST "/predict" (payload_of (inputs st))])).
Proof.
  intros Hf Hs He Hb Hc. rewrite onPredict_filled by exact Hf.
  unfold try_catch. rewrite bind_run. unfold fetch_json at 1. rewrite Hs.
  unfold on_answer. rewrite bind_run, (prop_run _ _ _ _ He), Hb.
  rewrite bind_run, to_string_throw by exact Hc. reflexivity.
Qed.

(** C4, as amended: for every answer of [/predict] whose [error] field is
    truthy, [onPredict] shows one dialog and returns: the donut, bar and
    line charts are what they were before the submission, no text of the
    page is written, and [/logs] is not asked.  The dialog is "Server
    Error: " followed by the error when the error converts to a string (a
    non-empty string, for instance); when it does not, the concatenation
    throws and the dialog is the "Communication Error: " of the [catch], with
    the TypeError.  An [error] that is there but falsy is not taken for an
    error: the handler goes on and writes the donut from the probability of
    the answer. *)
Theorem onPredict_server_error (server : request -> reply) (st : page)
  (answer err : JS.value) :
  all_filled st = true ->
  server (POST "/predict" (payload_of (inputs st))) = Json answer ->
  JS.get answer "error" = inr err ->
  let st' := run (onPredict server) st in
  (JS.ToBoolean err = true ->
   (JS.convertible err = true ->
    alerts st' = (alerts st ++ ["Server Error: " +:+ JS.ToString err])%list) /\
   (JS.convertible err = false ->
    exists msg,
      alerts st'
      = (alerts st ++ ["Communication Error: " +:+ JS.exn_toString (JS.TypeError msg)])%list) /\
   charts st' = charts st /\
   texts st' = texts st /\
   requests st' = (requests st ++ [POST "/predict" (payload_of (inputs st))])%list) /\
  (JS.ToBoolean err = false ->
   forall probability,
     JS.get answer "probability" = inr probability ->
     JS.convertible (JS.or probability (JS.VNum 0)) = true ->
     donutChart st'
     = Chart (labels (donutChart st))
             [JS.VNum (100 - probPercent_of probability);
              JS.VNum (probPercent_of probability)]
             (backgroundColor (donutChart st))).
Proof.
  intros Hf Hs He st'. unfold st'. split.
  - intros Hb. destruct (JS.convertible err) eqn:Hc.
    + unfold run. rewrite (onPredict_error_run server st answer err Hf Hs He Hb Hc).
      split; [reflexivity|]. split; [discriminate|]. repeat split.
    + unfold run. rewrite (onPredict_error_throw_run server st answer err Hf Hs He Hb Hc).
      split; [discriminate|]. split; [intros _; eexists; reflexivity|]. repeat split.
  - intros Hb probability Hp Hc.
    exact (proj1 (onPredict_donut_run server st answer err probability
                    Hf Hs He Hb Hp Hc)).
Qed.

(** C4, as amended, at a concrete page: the answer
    [{error: "model unavailable"}] leaves the three charts as they were. *)
Lemma onPredict_server_error_witness :
  let st := run (onPredict (serving (Json (prediction 0.42)) two_logs)) (loaded readings) in
  let answer := failure (JS.VStr "model unavailable") in
  let server := serving (Json answer) two_logs in
  (all_filled st = true /\
   server (POST "/predict" (payload_of (inputs st))) = Json answer /\
   JS.get answer "error" = inr (JS.VStr "model unavailable")) /\
  alerts (run (onPredict server) st) = ["Server Error: model unavailable"] /\
  charts (run (onPredict server) st) = charts st.
Proof.
  intros st answer server. split; [repeat split|].
  pose proof (proj1 (onPredict_server_error server st answer
                       (JS.VStr "model unavailable") eq_refl eq_refl eq_refl)
                    eq_refl) as (Ha & _ & Hc & _).
  split; [exact (Ha eq_refl)|exact Hc].
Defined.

(** C4 as stated fails: the answer [{error: ""}] contains an [error]
    field, yet its value is falsy, the answer is handled as a success, and
    the charts change (the donut goes from [58, 42] back to [100, 0]). *)
Lemma onPredict_empty_error_updates_charts :
  let st := run (onPredict (serving (Json (prediction 0.42)) two_logs)) (loaded readings) in
  let answer := failure (JS.VStr "") in
  let st' := run (onPredict (serving (Json answer) two_logs)) st in
  has_field "error" answer /\
  data (donutChart st) = [JS.VNum 58; JS.VNum 42] /\
  data (donutChart st') = [JS.VNum 100; JS.VNum 0] /\
  alerts st' = [] /\
  charts st' <> charts st.
Proof.
  intros st answer st'. split; [|split; [|split; [|split]]].
  - exists (JS.VStr ""). apply list_elem_of_here.
  - reflexivity.
  - reflexivity.
  - reflexivity.
  - intros H.
    apply (f_equal (fun c => match data c.1.2 with
                             | JS.VNum x :: _ => (x =? 100)%float
                             | _ => false
                             end)) in H.
    vm_compute in H. discriminate H.
Qed.

(** ** The donut, from one submission to the next *)

Lemma preserves_empty_check {X} (proj : page -> X) (l : list string) :
  (forall id css, preserves proj (set_border id css)) ->
  (forall id, preserves proj (value_of id)) ->
  forall allFilled, preserves proj (empty_check l allFilled).
Proof.
  intros Hs Hv. induction l as [|id l IH]; intros b; cbn [empty_check].
  - apply preserves_mret.
  - apply preserves_bind; [apply Hv|]. intros v.
    destruct (String.eqb v "").
    + apply preserves_bind; [apply Hs|]. intros _. apply IH.
    + apply IH.
Qed.

Lemma validate_donutChart : preserves donutChart validate.
Proof.
  unfold validate. apply preserves_bind.
  - frame.
  - intros _. apply preserves_empty_check; intros; frame.
Qed.

Lemma make_payload_donutChart : preserves donutChart make_payload.
Proof. frame. Qed.

(** An answer that [onPredict] does not take for a success leaves the
    donut alone. *)
Lemma on_answer_no_update (server : request -> reply)
  (payload : list (string * JS.value)) (answer : JS.value) (st : page) :
  (forall err probability,
     JS.get answer "error" = inr err -> JS.ToBoolean err = false ->
     JS.get answer "probability" = inr probability ->
     JS.convertible (JS.or probability (JS.VNum 0)) = false) ->
  donutChart (run (on_answer server payload answer) st) = donutChart st.
Proof.
  intros H. unfold run, on_answer. rewrite bind_run. unfold prop at 1.
  destruct (JS.get answer "error") as [e|err] eqn:He; [reflexivity|].
  cbn. destruct (JS.ToBoolean err) eqn:Hb.
  { unfold to_string. destruct (JS.convertible err); reflexivity. }
  rewrite bind_run. unfold prop at 1.
  destruct (JS.get answer "probability") as [e|x] eqn:Hp; [reflexivity|].
  cbn. rewrite bind_run, to_number_throw by exact (H err x eq_refl Hb eq_refl).
  reflexivity.
Qed.

(** Every run of [onPredict] either leaves the donut alone or writes it
    from the probability of the answer it got. *)
Lemma onPredict_donut_cases (server : request -> reply) (st : page) :
  donutChart (run (onPredict server) st) = donutChart st \/
  exists payload answer probability,
    server (POST "/predict" payload) = Json answer /\
    JS.get answer "probability" = inr probability /\
    donutChart (run (onPredict server) st)
    = Chart (labels (donutChart st))
            [JS.VNum (100 - probPercent_of probability);
             JS.VNum (probPercent_of probability)]
            (backgroundColor (donutChart st)).
Proof.
  unfold onPredict, run. rewrite bind_run.
  pose proof (validate_donutChart st) as H1. unfold run in H1.
  destruct (validate st) as [[allFilled|e] st1]; cbn [snd] in H1; [|left; exact H1].
  destruct allFilled; cbn [negb]; [|left; exact H1].
  rewrite bind_run.
  pose proof (make_payload_donutChart st1) as H2. unfold run in H2.
  destruct (make_payload st1) as [[payload|e] st2]; cbn [snd] in H2;
    [|left; cbn [snd]; congruence].
  match goal with
  | |- context [try_catch ?body ?handler st2] =>
      change (snd (try_catch body handler st2)) with (run (try_catch body handler) st2);
      rewrite (after_try_catch donutChart body handler st2 (fun e => alert_donutChart _))
  end.
  unfold run. rewrite bind_run. unfold fetch_json.
  destruct (server (POST "/predict" payload)) as [e|answer] eqn:Hs;
    [left; cbn; congruence|].
  set (st3 := Page (inputs st2) (texts st2) (logsChart st2) (donutChart st2)
                   (barChart st2) (alerts st2) (console st2)
                   (requests st2 ++ [POST "/predict" payload])).
  assert (H3 : donutChart st3 = donutChart st) by (cbn; congruence).
  destruct (JS.get answer "error") as [e|err] eqn:He.
  { left. rewrite <- H3. apply (on_answer_no_update server payload answer st3).
    intros err probability He'. congruence. }
  destruct (JS.ToBoolean err) eqn:Hb.
  { left. rewrite <- H3. apply (on_answer_no_update server payload answer st3).
    intros err' probability He' Hb'. congruence. }
  destruct (JS.get answer "probability") as [e|probability] eqn:Hp.
  { left. rewrite <- H3. apply (on_answer_no_update server payload answer st3).
    intros err' probability He' Hb' Hp'. congruence. }
  destruct (JS.convertible (JS.or probability (JS.VNum 0))) eqn:Hc.
  2:{ left. rewrite <- H3. apply (on_answer_no_update server payload answer st3).
      intros err' probability' He' Hb' Hp'. congruence. }
  right. exists payload, answer, probability. split; [exact Hs|]. split; [exact Hp|].
  destruct (on_answer_donut server payload answer err probability st3 He Hb Hp Hc)
    as [Hd _].
  unfold run in Hd. rewrite Hd, H3. reflexivity.
Qed.

(** The donut and its centre after the [load] listener. *)
Lemma onLoad_donut (server : request -> reply) (st : page) :
  data (donutChart (run (onLoad server) st)) = [JS.VNum 100; JS.VNum 0] /\
  center_text (run (onLoad server) st) = (fun _ => "0%") <$> center_text st.
Proof.
  unfold onLoad. split.
  - unfold run. rewrite bind_run. unfold set_logsChart at 1.
    match goal with
    | |- data (donutChart (snd ((?m ≫= ?k) ?st1))) = _ =>
        change (data (donutChart (run (m ≫= k) st1)) = [JS.VNum 100; JS.VNum 0]);
        rewrite (after_bind donutChart m k st1)
    end.
    + reflexivity.
    + intros _. frame.
  - unfold run. rewrite bind_run. unfold set_logsChart at 1.
    rewrite bind_run. unfold set_donutChart at 1.
    match goal with
    | |- center_text (snd ((?m ≫= ?k) ?st1)) = _ =>
        change (center_text (run (m ≫= k) st1) = (fun _ => "0%") <$> center_text st);
        rewrite (after_bind center_text m k st1)
    end.
    + unfold run, setDonutCenter, center_text. cbn [texts].
      destruct (texts st !! "donutCenter") eqn:E; cbn [snd fmap option_fmap option_map].
      * apply lookup_insert_eq.
      * exact E.
    + intros _. frame.
Qed.

(** The two Numbers written for a probability of the interface add up to
    100. *)
Lemma probPercent_sum (probability : JS.value) :
  probability_ok probability ->
  (100 - probPercent_of probability + probPercent_of probability)%float = 100%float.
Proof.
  intros [Hfalsy|(p & -> & H0 & H1)].
  - unfold probPercent_of, JS.or. rewrite Hfalsy. reflexivity.
  - destruct (probPercent_of_range p H0 H1) as (n & Hn & ->).
    destruct (percent_fact n Hn) as (E1 & E2 & _). now rewrite E1.
Qed.

(** C10, as amended: the donut is initialised to [100, 0] with the centre
    text "0%"; every write [onPredict] makes to it has the form
    [100 - probPercent, probPercent], two Numbers; and as long as the
    answers of [/predict] carry a probability that is a Number of [0, 1] or
    is falsy, after the initialisation and after every update the two
    entries add up to 100. *)
Theorem donut_invariant :
  (forall server st old,
     center_text st = Some old ->
     data (donutChart (run (onLoad server) st)) = [JS.VNum 100; JS.VNum 0] /\
     center_text (run (onLoad server) st) = Some "0%") /\
  (forall server st,
     donutChart (run (onPredict server) st) = donutChart st \/
     exists probPercent : float,
       data (donutChart (run (onPredict server) st))
       = [JS.VNum (100 - probPercent); JS.VNum probPercent]) /\
  (forall st, reachable st -> donut_sums_to_100 st).
Proof.
  split; [|split].
  - intros server st old Hc. destruct (onLoad_donut server st) as [Hd Ht].
    rewrite Hd, Ht, Hc. split; reflexivity.
  - intros server st.
    destruct (onPredict_donut_cases server st)
      as [H|(payload & answer & probability & _ & _ & H)]; [left; exact H|].
    right. exists (probPercent_of probability). rewrite H. reflexivity.
  - intros st Hr. induction Hr as [server st|f st Hr IH|server st Hw Hr IH].
    + exists 100%float, 0%float. split; [apply onLoad_donut|reflexivity].
    + exact IH.
    + destruct (onPredict_donut_cases server st)
        as [H|(payload & answer & probability & Hs & Hp & H)].
      * destruct IH as (a & b & Hd & Hsum). exists a, b. rewrite H. split; assumption.
      * eexists _, _. rewrite H. split; [reflexivity|].
        apply probPercent_sum. exact (Hw payload answer probability Hs Hp).
Qed.

Lemma well_typed_serving (p : float) (logs : reply) :
  (0 <=? p)%float = true -> (p <=? 1)%float = true ->
  well_typed (serving (Json (prediction p)) logs).
Proof.
  intros H0 H1 payload answer probability Hs Hp. cbn in Hs.
  injection Hs as <-. cbn in Hp. injection Hp as <-.
  right. exists p. repeat split; assumption.
Qed.

(** C10, as amended, at a concrete page: loaded, then submitted against a
    server that answers 0.42, the donut holds two Numbers that add up to
    100. *)
Lemma donut_invariant_witness :
  let server := serving (Json (prediction 0.42)) two_logs in
  let st := run (onPredict server) (loaded readings) in
  reachable st /\ donut_sums_to_100 st.
Proof.
  intros server st.
  assert (Hw : well_typed server) by (apply well_typed_serving; reflexivity).
  assert (Hr : reachable st)
    by exact (reach_predict server (loaded readings) Hw
                (reach_load (serving (Json JS.VNull) two_logs) (page_with readings))).
  split; [exact Hr|].
  exact (proj2 (proj2 donut_invariant) st Hr).
Defined.

(** C10 as stated fails: an answer whose probability is the word "high"
    is truthy, so it is not replaced by 0; it is not a numeral, so
    [probPercent] is NaN, both entries of the donut are NaN, and they do
    not add up to 100. *)
Lemma donut_not_100_after_worded_probability :
  let st := run (onPredict (serving (Json worded) two_logs)) (loaded readings) in
  data (donutChart st) = [JS.VNum nan; JS.VNum nan] /\
  center_text st = Some "NaN%" /\
  ~ donut_sums_to_100 st.
Proof.
  intros st.
  assert (Hd : data (donutChart st) = [JS.VNum nan; JS.VNum nan]) by reflexivity.
  split; [exact Hd|]. split; [reflexivity|].
  intros (a & b & Hab & Hsum). rewrite Hd in Hab.
  injection Hab as <- <-.
  apply (f_equal is_nan) in Hsum. vm_compute in Hsum. discriminate Hsum.
Qed.

(** ** Completion and failure of [onPredict] *)

Lemma run_bind_normal {A B} (m : script A) (k : A -> script B) (st st' : page) (a : A) :
  m st = (Normal a, st') -> (m ≫= k) st = k a st'.
Proof. intros H. rewrite bind_run, H. reflexivity. Qed.

(** A handler that only shows a dialog ends every exception. *)
Lemma try_catch_alert_outcome (body : script unit) (msg : JS.exn -> string) (st : page) :
  outcome (try_catch body (fun err => alert (msg err))) st = Normal tt.
Proof.
  unfold outcome, try_catch. destruct (body st) as [[[]|e] st']; reflexivity.
Qed.

(** The page [onPredict] leaves when [/predict] cannot be fetched. *)
Lemma onPredict_rejected_run (server : request -> reply) (st : page) (e : JS.exn) :
  all_filled st = true ->
  server (POST "/predict" (payload_of (inputs st))) = Rejected e ->
  onPredict server st
  = (Normal tt,
     Page (validated (inputs st)) (texts st) (logsChart st) (donutChart st)
          (barChart st)
          (alerts st ++ ["Communication Error: " +:+ JS.exn_toString e])
          (console st)
          (requests st ++ [POST "/predict" (payload_of (inputs st))])).
Proof.
  intros Hf Hs. rewrite onPredict_filled by exact Hf.
  unfold try_catch. rewrite bind_run. unfold fetch_json at 1. rewrite Hs.
  reflexivity.
Qed.

(** X1: when the form is filled and the fetch of [/predict] fails (no
    connection, or a body that is not JSON), [onPredict] shows the dialog
    "Communication Error: " followed by the error, and nothing else
    happens: the one request, no retry, no request for the logs, the three
    charts and the texts of the page as they were. *)
Theorem onPredict_communication_error (server : request -> reply) (st : page)
  (e : JS.exn) :
  all_filled st = true ->
  server (POST "/predict" (payload_of (inputs st))) = Rejected e ->
  let st' := run (onPredict server) st in
  alerts st' = (alerts st ++ ["Communication Error: " +:+ JS.exn_toString e])%list /\
  requests st' = (requests st ++ [POST "/predict" (payload_of (inputs st))])%list /\
  charts st' = charts st /\
  texts st' = texts st /\
  console st' = console st.
Proof.
  intros Hf Hs st'. unfold st', run.
  rewrite (onPredict_rejected_run server st e Hf Hs). repeat split.
Qed.

Lemma onPredict_communication_error_witness :
  let st := loaded readings in
  let e := JS.TypeError "Failed to fetch" in
  let server := serving (Rejected e) two_logs in
  (all_filled st = true /\
   server (POST "/predict" (payload_of (inputs st))) = Rejected e) /\
  alerts (run (onPredict server) st) = ["Communication Error: TypeError: Failed to fetch"] /\
  charts (run (onPredict server) st) = charts st.
Proof.
  intros st e server. split; [split; reflexivity|].
  pose proof (onPredict_communication_error server st e eq_refl eq_refl)
    as (Ha & _ & Hc & _).
  split; [exact Ha|exact Hc].
Defined.

(** X2: on a page that has the eight fields, [onPredict] never ends with
    an exception, whatever the fields hold and whatever the server does:
    everything thrown after the validation is caught and shown. *)
Theorem onPredict_never_throws (server : request -> reply) (st : page) :
  form_ok st = true -> outcome (onPredict server) st = Normal tt.
Proof.
  intros Hok. destruct (all_filled st) eqn:Hf.
  - unfold outcome. rewrite onPredict_filled by exact Hf.
    apply (try_catch_alert_outcome _ (fun err => "Communication Error: " +:+ JS.exn_toString err)).
  - unfold outcome. rewrite onPredict_not_filled by assumption. reflexivity.
Qed.

Lemma onPredict_never_throws_witness :
  let st := loaded readings in
  form_ok st = true /\
  outcome (onPredict (serving (Json JS.VNull) (Json JS.VNull))) st = Normal tt.
Proof.
  intros st. split; [reflexivity|].
  exact (onPredict_never_throws (serving (Json JS.VNull) (Json JS.VNull)) st eq_refl).
Defined.

(** The first loop stops at the first field that has no element. *)
Lemma forEach_set_border_missing (css : string) (l : list string) : forall st,
  present (inputs st) l = false ->
  exists f,
    forEach l (fun id => set_border id css) st
    = (Throw (JS.TypeError "Cannot read properties of null (reading 'style')"),
       with_inputs f st).
Proof.
  induction l as [|id l IH]; intros st Hp; [discriminate Hp|].
  cbn [forEach]. destruct (inputs st !! id) as [el|] eqn:Hel.
  - assert (Hl : present (inputs st) l = false).
    { unfold present in *. cbn in Hp. rewrite Hel in Hp.
      rewrite bool_decide_eq_true_2 in Hp by eauto. exact Hp. }
    rewrite bind_run, (set_border_run _ _ _ _ Hel).
    destruct (IH (with_inputs (alter (restyle css) id) st)) as [f Hf].
    { cbn. now rewrite present_alter. }
    exists (fun m => f (alter (restyle css) id m)). rewrite Hf. reflexivity.
  - exists (fun m => m). rewrite bind_run. unfold set_border. rewrite Hel.
    destruct st; reflexivity.
Qed.

(** X3: on a page that lacks one of the eight fields, [onPredict] ends
    with the TypeError of reading [style] on [null], thrown by the first
    loop and caught by nobody: no dialog is shown, no request is issued,
    and the charts and texts are as they were. *)
Theorem onPredict_missing_field (server : request -> reply) (st : page) :
  form_ok st = false ->
  let st' := run (onPredict server) st in
  outcome (onPredict server) st
  = Throw (JS.TypeError "Cannot read properties of null (reading 'style')") /\
  alerts st' = alerts st /\
  requests st' = requests st /\
  charts st' = charts st /\
  texts st' = texts st.
Proof.
  intros Hok st'. unfold st', outcome, run, onPredict, validate.
  destruct (forEach_set_border_missing border_reset ids st Hok) as [f Hf].
  rewrite !bind_run, Hf. repeat split.
Qed.

Lemma onPredict_missing_field_witness :
  let st := without_field "co2" (loaded readings) in
  form_ok st = false /\
  outcome (onPredict (serving (Json (prediction 0.42)) two_logs)) st
  = Throw (JS.TypeError "Cannot read properties of null (reading 'style')") /\
  requests (run (onPredict (serving (Json (prediction 0.42)) two_logs)) st)
  = requests st.
Proof.
  intros st. split; [reflexivity|].
  pose proof (onPredict_missing_field (serving (Json (prediction 0.42)) two_logs) st eq_refl)
    as (Ho & _ & Hr & _).
  split; [exact Ho|exact Hr].
Defined.

(** ** What the validation leaves alone *)

Lemma set_border_keeps_value (id css id' : string) :
  preserves (fun st => input_value <$> inputs st !! id') (set_border id css).
Proof.
  intros st. unfold run, set_border.
  destruct (inputs st !! id) as [el|] eqn:Hel; [|reflexivity]. cbn.
  destruct (decide (id = id')) as [<-|Hne].
  - rewrite lookup_insert_eq, Hel. reflexivity.
  - rewrite lookup_insert_ne by exact Hne. reflexivity.
Qed.

Lemma set_border_keeps_others (id css id' : string) :
  id <> id' -> preserves (fun st => inputs st !! id') (set_border id css).
Proof.
  intros Hne st. unfold run, set_border.
  destruct (inputs st !! id) as [el|] eqn:Hel; [|reflexivity]. cbn.
  apply lookup_insert_ne. exact Hne.
Qed.

Lemma preserves_empty_check_in {X} (proj : page -> X) (l : list string) :
  (forall id, id ∈ l -> preserves proj (set_border id border_error)) ->
  (forall id, preserves proj (value_of id)) ->
  forall allFilled, preserves proj (empty_check l allFilled).
Proof.
  intros Hs Hv. induction l as [|id l IH]; intros b; cbn [empty_check].
  - apply preserves_mret.
  - apply preserves_bind; [apply Hv|]. intros v.
    assert (IH' : forall b, preserves proj (empty_check l b)).
    { apply IH. intros id' Hin. apply Hs. now right. }
    destruct (String.eqb v "").
    + apply preserves_bind; [apply Hs; left|]. intros _. apply IH'.
    + apply IH'.
Qed.

Lemma preserves_forEach_in {A X} (proj : page -> X) (f : A -> script unit) (l : list A) :
  (forall a, a ∈ l -> preserves proj (f a)) -> preserves proj (forEach l f).
Proof.
  intros Hf. induction l as [|a l IH]; cbn [forEach].
  - apply preserves_mret.
  - apply preserves_bind; [apply Hf; left|]. intros _.
    apply IH. intros a' Hin. apply Hf. now right.
Qed.

Lemma value_of_inputs (id : string) : preserves inputs (value_of id).
Proof. frame. Qed.

(** What follows the validation does not write to the form. *)
Lemma onPredict_after_validate {X} (proj : gmap string input -> X)
  (server : request -> reply) (st : page) :
  proj (inputs (run (onPredict server) st)) = proj (inputs (run validate st)).
Proof.
  unfold onPredict.
  rewrite (after_bind (fun st => proj (inputs st))); [reflexivity|].
  intros allFilled st1.
  assert (H : preserves inputs
                (if negb allFilled then alert "⚠ Please fill all fields."
                 else payload ← make_payload;
                      try_catch
                        (answer ← fetch_json server (POST "/predict" payload);
                         on_answer server payload answer)
                        (fun err => alert ("Communication Error: " +:+ JS.exn_toString err))))
    by frame.
  now rewrite (H st1).
Qed.

(** The texts [onPredict] does not write. *)
Lemma onPredict_other_texts (server : request -> reply) (id : string) :
  id ∉ written_texts ->
  preserves (fun st => texts st !! id) (onPredict server).
Proof.
  intros Hid.
  assert (H1 : id <> "donutCenter") by (intros ->; apply Hid; repeat constructor).
  assert (H2 : id <> "errCode") by (intros ->; apply Hid; repeat constructor).
  assert (H3 : id <> "errDesc") by (intros ->; apply Hid; repeat constructor).
  unfold onPredict. apply preserves_bind.
  { unfold validate. apply preserves_bind; [frame|].
    intros _. apply preserves_empty_check; intros; frame. }
  intros allFilled. frame.
Qed.

(** X4: what [onPredict] never writes.  Whatever the page and the server,
    every form field holds the text it held; a form element other than the
    eight fields is as it was, border included; and no text of the page is
    written but those of [#donutCenter], [#errCode] and [#errDesc]. *)
Theorem onPredict_keeps_values (server : request -> reply) (st : page) (id : string) :
  let st' := run (onPredict server) st in
  input_value <$> inputs st' !! id = input_value <$> inputs st !! id /\
  (id ∉ ids -> inputs st' !! id = inputs st !! id) /\
  (id ∉ written_texts -> texts st' !! id = texts st !! id).
Proof.
  intros st'. unfold st'. split; [|split].
  - rewrite (onPredict_after_validate (fun m => input_value <$> m !! id)).
    assert (H : preserves (fun st => input_value <$> inputs st !! id) validate).
    { unfold validate. apply preserves_bind.
      - apply preserves_forEach. intros id'. apply set_border_keeps_value.
      - intros _. apply preserves_empty_check.
        + intros id' css. apply set_border_keeps_value.
        + intros id'. intros st0. unfold run, value_of.
          destruct (inputs st0 !! id'); reflexivity. }
    apply H.
  - intros Hnot.
    rewrite (onPredict_after_validate (fun m => m !! id)).
    assert (H : preserves (fun st => inputs st !! id) validate).
    { unfold validate. apply preserves_bind.
      - apply preserves_forEach_in. intros id' Hin.
        apply set_border_keeps_others. intros ->. contradiction.
      - intros _. apply preserves_empty_check_in.
        + intros id' Hin. apply set_border_keeps_others. intros ->. contradiction.
        + intros id'. intros st0. unfold run, value_of.
          destruct (inputs st0 !! id'); reflexivity. }
    apply H.
  - intros Hid. exact (onPredict_other_texts server id Hid st).
Qed.

Lemma styled_styled (el : input) : styled (styled el) = styled el.
Proof. destruct el as [v b]. reflexivity. Qed.

Lemma validated_idempotent (m : gmap string input) :
  validated (validated m) = validated m.
Proof.
  apply map_eq. intros id. rewrite !lookup_validated.
  destruct (decide (id ∈ ids)); [|reflexivity].
  destruct (m !! id) as [el|]; [|reflexivity]. cbn. now rewrite styled_styled.
Qed.

(** X5: pressing the button again without editing the form changes no
    border: on a page that has the eight fields, the form after two runs of
    [onPredict] is the form after the first, whatever the two servers
    answer. *)
Theorem onPredict_twice_borders (server1 server2 : request -> reply) (st : page) :
  form_ok st = true ->
  inputs (run (onPredict server2) (run (onPredict server1) st))
  = inputs (run (onPredict server1) st).
Proof.
  intros Hok.
  assert (Hok' : form_ok (run (onPredict server1) st) = true).
  { unfold form_ok. rewrite onPredict_inputs by exact Hok.
    unfold validated. rewrite !present_foldl_alter. exact Hok. }
  rewrite (onPredict_inputs server2) by exact Hok'.
  rewrite onPredict_inputs by exact Hok. apply validated_idempotent.
Qed.

Lemma onPredict_twice_borders_witness :
  let server := serving (Json (prediction 0.42)) two_logs in
  let st := page_with partial_readings in
  form_ok st = true /\
  inputs (run (onPredict server) (run (onPredict server) st))
  = inputs (run (onPredict server) st).
Proof.
  intros server st. split; [reflexivity|].
  exact (onPredict_twice_borders server server st eq_refl).
Defined.

(** ** The payload and the bars *)

Lemma keys_ids : keys = ids.
Proof. reflexivity. Qed.

Lemma lookup_payload_of (m : gmap string input) (key : string) :
  key ∈ keys ->
  JS.lookup_prop key (payload_of m)
  = JS.VNum (JS.StringToNumber (default "" (input_value <$> m !! key))).
Proof.
  intros Hin. rewrite keys_ids in Hin. unfold ids in Hin.
  repeat (apply elem_of_cons in Hin as [-> | Hin]; [reflexivity|]).
  apply elem_of_nil in Hin. contradiction.
Qed.

(** X6: the keys of [ranges] are the ids of the form, in the same order,
    so every bar has its field: drawn from the payload of a form, the bar of
    each sensor key shows the Number coerced from the text of the field of
    that name, never [undefined], and there are as many bars and colours as
    keys. *)
Theorem updateBarChart_payload (m : gmap string input) (st : page) :
  let st' := run (updateBarChart (payload_of m)) st in
  keys = ids /\
  data (barChart st')
  = (fun key => JS.VNum (JS.StringToNumber (default "" (input_value <$> m !! key))))
      <$> keys /\
  length (bar_colors st') = length keys /\
  labels (barChart st') = labels (barChart st).
Proof.
  intros st'. split; [reflexivity|]. split; [|split; reflexivity].
  change (data (barChart st'))
    with ((fun key => JS.lookup_prop key (payload_of m)) <$> keys).
  apply list_fmap_ext. intros i key Hi.
  apply lookup_payload_of. eapply list_elem_of_lookup_2. exact Hi.
Qed.





(** ** Every run of [loadLogsChart] *)

Lemma prop_readable (v : JS.value) (name : string) (st : page) :
  readable v = true -> prop v name st = (Normal (field name v), st).
Proof. destruct v; intros H; try discriminate H; reflexivity. Qed.

Lemma prop_unreadable (v : JS.value) (name : string) (st : page) :
  readable v = false -> exists e, prop v name st = (Throw e, st).
Proof. destruct v; intros H; try discriminate H; eexists; reflexivity. Qed.

(** A [map] whose callback succeeds on every element. *)
Lemma mapM_normal {B} (f : JS.value -> script B) (g : JS.value -> B)
  (ok : JS.value -> bool) (l : list JS.value) (st : page) :
  (forall v, ok v = true -> f v st = (Normal (g v), st)) ->
  forallb ok l = true ->
  mapM f l st = (Normal (g <$> l), st).
Proof.
  intros Hf. induction l as [|v l IH]; cbn [forallb]; intros H; [reflexivity|].
  apply andb_true_iff in H as [Hv Hl].
  cbn [mapM]. rewrite bind_run, (Hf v Hv), bind_run, (IH Hl). reflexivity.
Qed.

(** A [map] whose callback throws on some element stops there. *)
Lemma mapM_stops {B} (f : JS.value -> script B) (ok : JS.value -> bool)
  (l : list JS.value) (st : page) :
  (forall v, ok v = true -> exists x, f v st = (Normal x, st)) ->
  (forall v, ok v = false -> exists e, f v st = (Throw e, st)) ->
  forallb ok l = false ->
  exists e, mapM f l st = (Throw e, st).
Proof.
  intros Hn Ht. induction l as [|v l IH]; cbn [forallb]; intros H; [discriminate H|].
  cbn [mapM]. rewrite bind_run. destruct (ok v) eqn:Hv.
  - destruct (Hn v Hv) as [x ->]. destruct (IH H) as [e He].
    exists e. rewrite bind_run, He. reflexivity.
  - destruct (Ht v Hv) as [e ->]. exists e. reflexivity.
Qed.

(** The callback of the second [map], on one element. *)
Lemma point_run (v : JS.value) (st : page) :
  readable v = true -> plottable v = true ->
  (p ← prop v "probability"; x ← to_number p;
   mret (JS.VNum (JS.Math_round (x * 100)))) st
  = (Normal (log_point v), st).
Proof.
  intros Hr Hp. rewrite bind_run, (prop_readable _ _ _ Hr).
  rewrite bind_run, to_number_run by exact Hp. reflexivity.
Qed.

Lemma point_throw (v : JS.value) (st : page) :
  readable v && plottable v = false ->
  exists e,
    (p ← prop v "probability"; x ← to_number p;
     mret (JS.VNum (JS.Math_round (x * 100)))) st
    = (Throw e, st).
Proof.
  intros H. rewrite bind_run. destruct (readable v) eqn:Hr.
  - rewrite (prop_readable _ _ _ Hr). cbn in H.
    rewrite bind_run, to_number_throw by exact H. eauto.
  - destruct (prop_unreadable v "probability" st Hr) as [e ->]. eauto.
Qed.

Lemma forallb_readable_plottable (l : list JS.value) :
  forallb readable l = true ->
  forallb (fun v => readable v && plottable v) l = forallb plottable l.
Proof.
  induction l as [|v l IH]; cbn [forallb]; intros H; [reflexivity|].
  apply andb_true_iff in H as [-> Hl]. now rewrite (IH Hl).
Qed.

(** The page [loadLogsChart] leaves, whatever the server answers. *)
Lemma loadLogsChart_page (server : request -> reply) (st : page) :
  exists lines,
    loadLogsChart server st
    = (Normal tt,
       Page (inputs st) (texts st) (logs_after server (logsChart st))
            (donutChart st) (barChart st) (alerts st) (console st ++ lines)
            (requests st ++ [GET "/logs"])) /\
    if logs_plottable server then lines = [] else exists line, lines = [line].
Proof.
  unfold logs_after, logs_plottable.
  destruct (server (GET "/logs")) as [e|body] eqn:Hs.
  { eexists. split; [apply (loadLogsChart_rejected server st e Hs)|]. eauto. }
  set (st1 := Page (inputs st) (texts st) (logsChart st) (donutChart st)
                   (barChart st) (alerts st) (console st)
                   (requests st ++ [GET "/logs"])).
  assert (Hthrow : (forall elems, body <> JS.VArr elems) ->
            exists e, Array_map "logs" body (fun l => prop l "timestamp") st1
                      = (Throw e, st1)).
  { intros Hna. destruct body; try (eexists; reflexivity).
    destruct (Hna elems eq_refl). }
  unfold loadLogsChart, try_catch. rewrite bind_run. unfold fetch_json at 1.
  rewrite Hs. fold st1. rewrite bind_run.
  destruct body as [ | |b|x|s|elems|props];
    try (destruct Hthrow as [e He]; [discriminate|];
         rewrite He; eexists; split; [reflexivity|]; eauto).
  unfold Array_map at 1. destruct (forallb readable elems) eqn:Hr.
  - rewrite (mapM_normal _ (field "timestamp") readable elems st1
               (fun v Hv => prop_readable v "timestamp" st1 Hv) Hr).
    rewrite bind_run. unfold get_page at 1.
    rewrite bind_run. unfold set_logsChart at 1.
    rewrite bind_run. unfold Array_map at 1.
    cbn [andb]. destruct (forallb plottable elems) eqn:Hp.
    + rewrite (mapM_normal _ log_point (fun v => readable v && plottable v) elems).
      * exists []. split; [|reflexivity]. cbn. rewrite app_nil_r. reflexivity.
      * intros v Hv. apply andb_true_iff in Hv as [Hv1 Hv2].
        apply point_run; assumption.
      * rewrite forallb_readable_plottable; assumption.
    + match goal with
      | |- context [mapM ?f elems ?st2] =>
          destruct (mapM_stops f (fun v => readable v && plottable v) elems st2)
            as [e He]
      end.
      * intros v Hv. apply andb_true_iff in Hv as [Hv1 Hv2].
        eexists. apply point_run; assumption.
      * intros v Hv. apply point_throw. exact Hv.
      * rewrite forallb_readable_plottable; assumption.
      * rewrite He. eexists. split; [reflexivity|]. eauto.
  - destruct (mapM_stops (fun l => prop l "timestamp") readable elems st1) as [e He].
    + intros v Hv. eexists. apply prop_readable. exact Hv.
    + intros v Hv. apply prop_unreadable. exact Hv.
    + exact Hr.
    + rewrite He. eexists. split; [reflexivity|]. cbn [andb]. eauto.
Qed.

(** X8: whatever the server answers, [loadLogsChart] never ends with an
    exception, issues the one request for [/logs], shows no dialog, writes
    no text, touches neither the form nor the donut nor the bars, and logs
    at most one line. *)
Theorem loadLogsChart_contained (server : request -> reply) (st : page) :
  let st' := run (loadLogsChart server) st in
  outcome (loadLogsChart server) st = Normal tt /\
  requests st' = (requests st ++ [GET "/logs"])%list /\
  alerts st' = alerts st /\
  texts st' = texts st /\
  inputs st' = inputs st /\
  donutChart st' = donutChart st /\
  barChart st' = barChart st /\
  (console st' = console st \/ exists line, console st' = (console st ++ [line])%list).
Proof.
  intros st'. unfold st', outcome, run.
  destruct (loadLogsChart_page server st) as (lines & -> & Hl). cbn.
  repeat split. destruct (logs_plottable server).
  - left. rewrite Hl. apply app_nil_r.
  - right. destruct Hl as [line ->]. eauto.
Qed.

(** The line chart after [loadLogsChart]. *)
Lemma loadLogsChart_logsChart (server : request -> reply) (st : page) :
  logsChart (run (loadLogsChart server) st) = logs_after server (logsChart st).
Proof.
  unfold run. destruct (loadLogsChart_page server st) as (lines & -> & _).
  reflexivity.
Qed.

(** The console after a run that does not get through both [map]s. *)
Lemma loadLogsChart_console (server : request -> reply) (st : page) :
  logs_plottable server = false ->
  exists line, console (run (loadLogsChart server) st) = (console st ++ [line])%list.
Proof.
  intros H. unfold run.
  destruct (loadLogsChart_page server st) as (lines & -> & Hl).
  rewrite H in Hl. destruct Hl as [line ->]. eauto.
Qed.

(** X9: an answer of [/logs] that cannot be read leaves the line chart
    alone.  When the answer is not an array, or is an array with a [null]
    in it, the first [map] throws before anything is assigned: labels and
    points are as they were, and the one effect is a console line. *)
Theorem loadLogsChart_unreadable (server : request -> reply) (st : page) :
  logs_ok server = false ->
  let st' := run (loadLogsChart server) st in
  logsChart st' = logsChart st /\
  exists line, console st' = (console st ++ [line])%list.
Proof.
  intros H st'. unfold st'. split.
  - rewrite loadLogsChart_logsChart. unfold logs_after, logs_ok in *.
    destruct (server (GET "/logs")) as [e|[ | |b|x|s|elems|props]]; try reflexivity.
    now rewrite H.
  - apply loadLogsChart_console. unfold logs_plottable, logs_ok in *.
    destruct (server (GET "/logs")) as [e|[ | |b|x|s|elems|props]]; try reflexivity.
    now rewrite H.
Qed.

Lemma loadLogsChart_unreadable_witness :
  let server := serving (Json JS.VNull)
                  (Json (JS.VArr [log_entry "t3" 0.9; JS.VNull])) in
  let st := loaded readings in
  logs_ok server = false /\
  labels (logsChart (run (loadLogsChart server) st)) = [JS.VStr "t1"; JS.VStr "t2"] /\
  data (logsChart (run (loadLogsChart server) st)) = [JS.VNum 10; JS.VNum 50].
Proof.
  intros server st. split; [reflexivity|].
  pose proof (loadLogsChart_unreadable server st eq_refl) as [Hc _].
  rewrite Hc. split; reflexivity.
Defined.

(** X20: the update of the line chart is not atomic.  When the answer is
    an array of readable elements and the probability of one of them does
    not convert to a Number, the labels have already been replaced when the
    second [map] throws: the chart is left with the new labels and the old
    points, and a console line. *)
Theorem loadLogsChart_partial_update (server : request -> reply) (st : page)
  (elems : list JS.value) :
  server (GET "/logs") = Json (JS.VArr elems) ->
  forallb readable elems = true ->
  forallb plottable elems = false ->
  let st' := run (loadLogsChart server) st in
  labels (logsChart st') = field "timestamp" <$> elems /\
  data (logsChart st') = data (logsChart st) /\
  exists line, console st' = (console st ++ [line])%list.
Proof.
  intros Hs Hr Hp st'. unfold st'. rewrite loadLogsChart_logsChart.
  unfold logs_after. rewrite Hs, Hr, Hp. split; [reflexivity|]. split; [reflexivity|].
  apply loadLogsChart_console. unfold logs_plottable. rewrite Hs, Hr, Hp. reflexivity.
Qed.

Lemma loadLogsChart_partial_update_witness :
  let server := serving (Json JS.VNull) (Json (JS.VArr [odd_entry "n1"])) in
  let st := loaded readings in
  (server (GET "/logs") = Json (JS.VArr [odd_entry "n1"]) /\
   forallb readable [odd_entry "n1"] = true /\
   forallb plottable [odd_entry "n1"] = false) /\
  labels (logsChart (run (loadLogsChart server) st)) = [JS.VStr "n1"] /\
  data (logsChart (run (loadLogsChart server) st)) = [JS.VNum 10; JS.VNum 50].
Proof.
  intros server st. split; [repeat split|].
  pose proof (loadLogsChart_partial_update server st _ eq_refl eq_refl eq_refl)
    as (Hl & Hd & _).
  rewrite Hl, Hd. split; reflexivity.
Defined.

(** X10: what [loadLogsChart] plots does not depend on the entries being
    well typed.  For an array of readable elements whose probabilities
    convert to Numbers, the labels are the [timestamp] values as they are,
    of whatever type, and the points are [Math.round(probability * 100)]
    after conversion; there is no fallback for a missing probability, so
    such an entry gives the point NaN. *)
Theorem loadLogsChart_untyped (server : request -> reply) (st : page)
  (elems : list JS.value) :
  server (GET "/logs") = Json (JS.VArr elems) ->
  forallb readable elems = true ->
  forallb plottable elems = true ->
  let st' := run (loadLogsChart server) st in
  labels (logsChart st') = field "timestamp" <$> elems /\
  data (logsChart st') = log_point <$> elems /\
  (forall i v t, elems !! i = Some v -> JS.get v "timestamp" = inr t ->
                 labels (logsChart st') !! i = Some t) /\
  (forall i v, elems !! i = Some v -> JS.get v "probability" = inr JS.VUndefined ->
               data (logsChart st') !! i = Some (JS.VNum nan)).
Proof.
  intros Hs Hr Hp st'. unfold st'. rewrite loadLogsChart_logsChart.
  unfold logs_after. rewrite Hs, Hr, Hp. cbn [labels data].
  split; [reflexivity|]. split; [reflexivity|]. split.
  - intros i v t Hi Ht. rewrite list_lookup_fmap, Hi. cbn. unfold field.
    now rewrite Ht.
  - intros i v Hi Hv. rewrite list_lookup_fmap, Hi. cbn. unfold log_point, field.
    rewrite Hv. reflexivity.
Qed.

Lemma loadLogsChart_untyped_witness :
  let server := serving (Json JS.VNull)
                  (Json (JS.VArr [log_entry "t1" 0.1; bare_entry "t2"])) in
  let st := loaded readings in
  (server (GET "/logs") = Json (JS.VArr [log_entry "t1" 0.1; bare_entry "t2"]) /\
   forallb readable [log_entry "t1" 0.1; bare_entry "t2"] = true /\
   forallb plottable [log_entry "t1" 0.1; bare_entry "t2"] = true) /\
  labels (logsChart (run (loadLogsChart server) st)) = [JS.VStr "t1"; JS.VStr "t2"] /\
  data (logsChart (run (loadLogsChart server) st)) = [JS.VNum 10; JS.VNum nan].
Proof.
  intros server st. split; [repeat split|].
  pose proof (loadLogsChart_untyped server st _ eq_refl eq_refl eq_refl)
    as (Hl & Hd & _).
  split; [exact Hl|exact Hd].
Defined.

Lemma logs_after_readable (server : request -> reply) (c : chart)
  (elems : list JS.value) :
  server (GET "/logs") = Json (JS.VArr elems) ->
  forallb readable elems = true ->
  logs_after server c
  = Chart (field "timestamp" <$> elems)
          (if forallb plottable elems then log_point <$> elems else data c)
          (backgroundColor c).
Proof. intros Hs Hr. unfold logs_after. now rewrite Hs, Hr. Qed.

Lemma logs_after_unreadable (server : request -> reply) (c : chart) :
  logs_ok server = false -> logs_after server c = c.
Proof.
  unfold logs_ok, logs_after.
  destruct (server (GET "/logs")) as [e|[ | |b|x|s|elems|props]]; try reflexivity.
  now intros ->.
Qed.

Lemma logs_after_backgroundColor (server : request -> reply) (c : chart) :
  backgroundColor (logs_after server c) = backgroundColor c.
Proof.
  unfold logs_after.
  destruct (server (GET "/logs")) as [e|[ | |b|x|s|elems|props]]; try reflexivity.
  destruct (forallb readable elems); reflexivity.
Qed.

Lemma logs_ok_elems (server : request -> reply) :
  logs_ok server = true ->
  exists elems, server (GET "/logs") = Json (JS.VArr elems) /\
                forallb readable elems = true /\
                logs_plottable server = forallb plottable elems.
Proof.
  unfold logs_ok, logs_plottable.
  destruct (server (GET "/logs")) as [e|[ | |b|x|s|elems|props]]; try discriminate.
  intros H. exists elems. rewrite H. repeat split.
Qed.

Lemma logs_plottable_ok (server : request -> reply) :
  logs_plottable server = true -> logs_ok server = true.
Proof.
  unfold logs_ok, logs_plottable.
  destruct (server (GET "/logs")) as [e|[ | |b|x|s|elems|props]]; try discriminate.
  intros H. now apply andb_true_iff in H as [H _].
Qed.

(** X11: one refresh after another.  When the second answer is an array
    of readable elements whose probabilities convert, it erases what the
    first refresh showed; when it cannot be read, the chart of the first
    refresh stays; and when it can be read but a probability does not
    convert, the chart has the labels of the second answer over the points
    the first refresh left. *)
Theorem loadLogsChart_refresh (server1 server2 : request -> reply) (st : page) :
  let st1 := run (loadLogsChart server1) st in
  let st2 := run (loadLogsChart server2) st1 in
  (logs_plottable server2 = true ->
   logsChart st2 = logsChart (run (loadLogsChart server2) st)) /\
  (logs_ok server2 = false -> logsChart st2 = logsChart st1) /\
  (logs_ok server2 = true -> logs_plottable server2 = false ->
   labels (logsChart st2) = labels (logsChart (run (loadLogsChart server2) st)) /\
   data (logsChart st2) = data (logsChart st1)).
Proof.
  intros st1 st2. unfold st2, st1. rewrite !loadLogsChart_logsChart.
  split; [|split].
  - intros Hp. destruct (logs_ok_elems server2 (logs_plottable_ok _ Hp))
      as (elems & Hs & Hr & E).
    rewrite Hp in E. rewrite !(logs_after_readable server2 _ elems Hs Hr), <- E.
    now rewrite logs_after_backgroundColor.
  - intros Hok. now apply logs_after_unreadable.
  - intros Hok Hp. destruct (logs_ok_elems server2 Hok) as (elems & Hs & Hr & E).
    rewrite Hp in E. rewrite !(logs_after_readable server2 _ elems Hs Hr), <- E.
    split; reflexivity.
Qed.

Lemma Math_round_unit_interval (p : float) :
  (0 <=? p)%float = true -> (p <=? 1)%float = true ->
  exists n : Z, 0 <= n <= 100 /\ SameValueZero (JS.Math_round (p * 100)) (JS.of_Z n).
Proof.
  intros H0 H1. destruct (is_zero p) eqn:Hz.
  - exists 0. split; [lia|].
    destruct (FloatFacts.is_zero_cases p Hz) as [-> | ->].
    + left. reflexivity.
    + right. split; reflexivity.
  - destruct (Math_round_mul_100 p H0 H1 Hz) as (n & Hn & ->).
    exists n. split; [exact Hn|]. left. reflexivity.
Qed.

(** X12: the points of the line chart fit its axis, which ends at 100:
    for log entries whose probabilities are Numbers of [0, 1], every point
    [loadLogsChart] plots is an integer from 0 to 100. *)
Theorem loadLogsChart_points_in_range (server : request -> reply) (st : page)
  (elems : list JS.value) (entries : list (string * float)) :
  server (GET "/logs") = Json (JS.VArr elems) ->
  Forall2 is_log_entry elems entries ->
  Forall (fun entry => (0 <=? entry.2)%float = true /\ (entry.2 <=? 1)%float = true)
         entries ->
  Forall (fun point => exists (y : float) (n : Z),
                         point = JS.VNum y /\ 0 <= n <= 100 /\
                         SameValueZero y (JS.of_Z n))
         (data (logsChart (run (loadLogsChart server) st))).
Proof.
  intros Hs He Hp. unfold run.
  rewrite (loadLogsChart_run server st elems entries Hs He). cbn.
  apply Forall_fmap. eapply Forall_impl; [exact Hp|].
  intros [t p] [H0 H1]. cbn in *.
  destruct (Math_round_unit_interval p H0 H1) as (n & Hn & Hsame).
  eexists _, n. split; [reflexivity|]. split; assumption.
Qed.

Lemma loadLogsChart_points_in_range_witness :
  let server := serving (Json JS.VNull) two_logs in
  let entries := [("t1", 0.1%float); ("t2", 0.5%float)] in
  (server (GET "/logs") = Json (JS.VArr [log_entry "t1" 0.1; log_entry "t2" 0.5]) /\
   Forall2 is_log_entry [log_entry "t1" 0.1; log_entry "t2" 0.5] entries /\
   Forall (fun entry => (0 <=? entry.2)%float = true /\ (entry.2 <=? 1)%float = true)
          entries) /\
  Forall (fun point => exists (y : float) (n : Z),
                         point = JS.VNum y /\ 0 <= n <= 100 /\
                         SameValueZero y (JS.of_Z n))
         (data (logsChart (run (loadLogsChart server) (loaded readings)))).
Proof.
  intros server entries.
  assert (He : Forall2 is_log_entry [log_entry "t1" 0.1; log_entry "t2" 0.5] entries)
    by (repeat constructor).
  assert (Hp : Forall (fun entry => (0 <=? entry.2)%float = true
                                    /\ (entry.2 <=? 1)%float = true) entries)
    by (repeat constructor).
  split; [split; [reflexivity|split; [exact He|exact Hp]]|].
  exact (loadLogsChart_points_in_range server (loaded readings) _ entries eq_refl He Hp).
Defined.

(** ** The whole of a successful prediction *)

Lemma updateBarChart_run (values : list (string * JS.value)) (st : page) :
  updateBarChart values st
  = (Normal tt,
     Page (inputs st) (texts st) (logsChart st) (donutChart st)
          (Chart (labels (barChart st))
                 ((fun key => JS.lookup_prop key values) <$> keys)
                 (color_for values <$> ranges))
          (alerts st) (console st) (requests st)).
Proof. reflexivity. Qed.

Lemma setDonutCenter_run (text : string) (st : page) :
  setDonutCenter text st = (Normal tt, with_texts (center_set text) st).
Proof.
  unfold setDonutCenter, center_set, with_texts.
  destruct (texts st !! "donutCenter"); [reflexivity|]. destruct st; reflexivity.
Qed.

Lemma lookup_center_set (text id : string) (m : gmap string string) :
  id <> "donutCenter" -> center_set text m !! id = m !! id.
Proof.
  intros Hid. unfold center_set. destruct (m !! "donutCenter"); [|reflexivity].
  apply lookup_insert_ne. congruence.
Qed.

Lemma center_text_center_set (text : string) (m : gmap string string) :
  center_set text m !! "donutCenter" = (fun _ => text) <$> m !! "donutCenter".
Proof.
  unfold center_set. destruct (m !! "donutCenter") eqn:E; cbn.
  - apply lookup_insert_eq.
  - exact E.
Qed.

(** The handling of an answer, up to the two texts. *)
Lemma on_answer_texts (server : request -> reply)
  (payload : list (string * JS.value)) (answer : JS.value) (st : page) :
  readable answer = true ->
  JS.ToBoolean (field "error" answer) = false ->
  JS.convertible (JS.or (field "probability" answer) (JS.VNum 0)) = true ->
  on_answer server payload answer st
  = (set_innerText "errCode" (field "error_code" answer) ;;
     error_description ← prop answer "error_description";
     set_innerText "errDesc" error_description ;;
     updateBarChart payload ;;
     loadLogsChart server)
      (donut_written (probPercent_of (field "probability" answer)) st).
Proof.
  intros Hr Hb Hc. unfold on_answer.
  rewrite bind_run, (prop_readable _ _ _ Hr), Hb.
  rewrite bind_run, (prop_readable _ _ _ Hr).
  rewrite bind_run, to_number_run by exact Hc.
  rewrite bind_run. unfold get_page at 1.
  rewrite bind_run. unfold set_donutChart at 1.
  rewrite bind_run, setDonutCenter_run.
  rewrite bind_run, (prop_readable _ _ _ Hr).
  reflexivity.
Qed.

(** The handling of an answer whose probability does not convert. *)
Lemma on_answer_probability_throw (server : request -> reply)
  (payload : list (string * JS.value)) (answer : JS.value) (st : page) :
  readable answer = true ->
  JS.ToBoolean (field "error" answer) = false ->
  JS.convertible (JS.or (field "probability" answer) (JS.VNum 0)) = false ->
  on_answer server payload answer st = (Throw JS.not_convertible, st).
Proof.
  intros Hr Hb Hc. unfold on_answer.
  rewrite bind_run, (prop_readable _ _ _ Hr), Hb.
  rewrite bind_run, (prop_readable _ _ _ Hr).
  rewrite bind_run, to_number_throw by exact Hc. reflexivity.
Qed.

(** The handling of an answer on a page that has both text elements. *)
Lemma on_answer_run (server : request -> reply)
  (payload : list (string * JS.value)) (answer : JS.value) (st : page)
  (code desc : string) :
  readable answer = true ->
  JS.ToBoolean (field "error" answer) = false ->
  JS.convertible (JS.or (field "probability" answer) (JS.VNum 0)) = true ->
  JS.convertible (field "error_code" answer) = true ->
  JS.convertible (field "error_description" answer) = true ->
  texts st !! "errCode" = Some code ->
  texts st !! "errDesc" = Some desc ->
  on_answer server payload answer st
  = loadLogsChart server
      (Page (inputs st)
            (<["errDesc" := innerText_of (field "error_description" answer)]>
               (<["errCode" := innerText_of (field "error_code" answer)]>
                  (center_set
                     (JS.Number_toString (probPercent_of (field "probability" answer))
                      +:+ "%")
                     (texts st))))
            (logsChart st)
            (Chart (labels (donutChart st))
                   [JS.VNum (100 - probPercent_of (field "probability" answer));
                    JS.VNum (probPercent_of (field "probability" answer))]
                   (backgroundColor (donutChart st)))
            (Chart (labels (barChart st))
                   ((fun key => JS.lookup_prop key payload) <$> keys)
                   (color_for payload <$> ranges))
            (alerts st) (console st) (requests st)).
Proof.
  intros Hr Hb Hp Hcc Hcd Hc Hd. rewrite on_answer_texts by assumption.
  rewrite bind_run. unfold set_innerText at 1, donut_written. cbn [texts].
  rewrite lookup_center_set, Hc, Hcc by discriminate.
  rewrite bind_run, (prop_readable _ _ _ Hr).
  rewrite bind_run. unfold set_innerText at 1, with_texts. cbn [texts].
  rewrite lookup_insert_ne, lookup_center_set, Hd, Hcd by discriminate.
  rewrite bind_run, updateBarChart_run. reflexivity.
Qed.

(** The page a successful prediction leaves. *)
Lemma onPredict_success_run (server : request -> reply) (st : page)
  (answer : JS.value) (code desc : string) :
  all_filled st = true ->
  texts st !! "errCode" = Some code ->
  texts st !! "errDesc" = Some desc ->
  server (POST "/predict" (payload_of (inputs st))) = Json answer ->
  readable answer = true ->
  JS.ToBoolean (field "error" answer) = false ->
  JS.convertible (JS.or (field "probability" answer) (JS.VNum 0)) = true ->
  JS.convertible (field "error_code" answer) = true ->
  JS.convertible (field "error_description" answer) = true ->
  exists donut lines,
    onPredict server st
    = (Normal tt,
       Page (validated (inputs st))
            (<["errDesc" := innerText_of (field "error_description" answer)]>
               (<["errCode" := innerText_of (field "error_code" answer)]>
                  (center_set
                     (JS.Number_toString (probPercent_of (field "probability" answer))
                      +:+ "%")
                     (texts st))))
            (logs_after server (logsChart st))
            donut
            (Chart (labels (barChart st))
                   ((fun key => JS.lookup_prop key (payload_of (inputs st))) <$> keys)
                   (color_for (payload_of (inputs st)) <$> ranges))
            (alerts st) (console st ++ lines)
            ((requests st ++ [POST "/predict" (payload_of (inputs st))])
               ++ [GET "/logs"])).
Proof.
  intros Hf Hc Hd Hs Hr Hb Hp Hcc Hcd.
  rewrite onPredict_filled by exact Hf.
  unfold try_catch. rewrite bind_run. unfold fetch_json at 1. rewrite Hs.
  rewrite (on_answer_run server _ answer _ code desc Hr Hb Hp Hcc Hcd) by assumption.
  match goal with
  | |- context [loadLogsChart server ?st1] =>
      destruct (loadLogsChart_page server st1) as (lines & -> & _)
  end.
  eexists _, lines. reflexivity.
Qed.

(** X13: the whole of a successful prediction.  With the form filled, the
    two text elements on the page and an answer without a truthy [error]
    whose probability, [error_code] and [error_description] convert,
    [onPredict] completes without dialog, writes [error_code] and
    [error_description] as texts (a missing one reads "undefined", a [null]
    one is empty), draws one bar per sensor key from the submitted payload,
    and refreshes the line chart from [/logs], requested once and after
    [/predict]. *)
Theorem onPredict_success (server : request -> reply) (st : page)
  (answer : JS.value) (code desc : string) :
  all_filled st = true ->
  texts st !! "errCode" = Some code ->
  texts st !! "errDesc" = Some desc ->
  server (POST "/predict" (payload_of (inputs st))) = Json answer ->
  readable answer = true ->
  JS.ToBoolean (field "error" answer) = false ->
  JS.convertible (JS.or (field "probability" answer) (JS.VNum 0)) = true ->
  JS.convertible (field "error_code" answer) = true ->
  JS.convertible (field "error_description" answer) = true ->
  let st' := run (onPredict server) st in
  let payload := payload_of (inputs st) in
  outcome (onPredict server) st = Normal tt /\
  alerts st' = alerts st /\
  requests st' = (requests st ++ [POST "/predict" payload; GET "/logs"])%list /\
  texts st' !! "errCode" = Some (innerText_of (field "error_code" answer)) /\
  texts st' !! "errDesc" = Some (innerText_of (field "error_description" answer)) /\
  (field "error_code" answer = JS.VUndefined -> texts st' !! "errCode" = Some "undefined") /\
  (field "error_code" answer = JS.VNull -> texts st' !! "errCode" = Some "") /\
  barChart st'
  = Chart (labels (barChart st))
          ((fun key => JS.lookup_prop key payload) <$> keys)
          (color_for payload <$> ranges) /\
  logsChart st' = logs_after server (logsChart st).
Proof.
  intros Hf Hc Hd Hs Hr Hb Hp Hcc Hcd st' payload. unfold st', outcome, run, payload.
  destruct (onPredict_success_run server st answer code desc Hf Hc Hd Hs Hr Hb Hp Hcc Hcd)
    as (donut & lines & ->).
  cbn [fst snd alerts requests texts barChart logsChart].
  assert (Hcode : (<["errDesc" := innerText_of (field "error_description" answer)]>
                     (<["errCode" := innerText_of (field "error_code" answer)]>
                        (center_set
                           (JS.Number_toString
                              (probPercent_of (field "probability" answer)) +:+ "%")
                           (texts st))) : gmap string string) !! "errCode"
                  = Some (innerText_of (field "error_code" answer))).
  { rewrite lookup_insert_ne by discriminate. apply lookup_insert_eq. }
  split; [reflexivity|]. split; [reflexivity|].
  split; [now rewrite <- app_assoc|].
  split; [exact Hcode|]. split; [apply lookup_insert_eq|].
  split; [intros E; rewrite Hcode, E; reflexivity|].
  split; [intros E; rewrite Hcode, E; reflexivity|].
  split; reflexivity.
Qed.

Lemma onPredict_success_witness :
  let server := serving (Json (prediction 0.42)) two_logs in
  let st := loaded readings in
  (all_filled st = true /\
   texts st !! "errCode" = Some "" /\
   texts st !! "errDesc" = Some "" /\
   server (POST "/predict" (payload_of (inputs st))) = Json (prediction 0.42) /\
   readable (prediction 0.42) = true /\
   JS.ToBoolean (field "error" (prediction 0.42)) = false /\
   JS.convertible (JS.or (field "probability" (prediction 0.42)) (JS.VNum 0)) = true /\
   JS.convertible (field "error_code" (prediction 0.42)) = true /\
   JS.convertible (field "error_description" (prediction 0.42)) = true) /\
  alerts (run (onPredict server) st) = alerts st /\
  requests (run (onPredict server) st)
  = (requests st ++ [POST "/predict" (payload_of (inputs st)); GET "/logs"])%list.
Proof.
  intros server st.
  split; [repeat split|].
  pose proof (onPredict_success server st (prediction 0.42) "" ""
                eq_refl eq_refl eq_refl eq_refl eq_refl eq_refl eq_refl eq_refl eq_refl)
    as (_ & Ha & Hq & _).
  split; [exact Ha|exact Hq].
Defined.

(** The page a prediction leaves when the write to [#errCode] throws,
    with the exception the write throws. *)
Lemma onPredict_code_throw_run (server : request -> reply) (st : page)
  (answer : JS.value) :
  all_filled st = true ->
  server (POST "/predict" (payload_of (inputs st))) = Json answer ->
  readable answer = true ->
  JS.ToBoolean (field "error" answer) = false ->
  JS.convertible (JS.or (field "probability" answer) (JS.VNum 0)) = true ->
  texts st !! "errCode" = None \/ JS.convertible (field "error_code" answer) = false ->
  exists msg,
    onPredict server st
    = (Normal tt,
       Page (validated (inputs st))
            (center_set
               (JS.Number_toString (probPercent_of (field "probability" answer)) +:+ "%")
               (texts st))
            (logsChart st)
            (Chart (labels (donutChart st))
                   [JS.VNum (100 - probPercent_of (field "probability" answer));
                    JS.VNum (probPercent_of (field "probability" answer))]
                   (backgroundColor (donutChart st)))
            (barChart st)
            (alerts st ++
             ["Communication Error: " +:+ JS.exn_toString (JS.TypeError msg)])
            (console st)
            (requests st ++ [POST "/predict" (payload_of (inputs st))])).
Proof.
  intros Hf Hs Hr Hb Hp Hw.
  rewrite onPredict_filled by exact Hf.
  unfold try_catch. rewrite bind_run. unfold fetch_json at 1. rewrite Hs.
  rewrite on_answer_texts by assumption.
  rewrite bind_run. unfold set_innerText at 1, donut_written. cbn [texts with_inputs].
  rewrite lookup_center_set by discriminate.
  destruct (texts st !! "errCode") as [code|] eqn:Hc.
  - destruct Hw as [Hw|Hw]; [discriminate Hw|]. rewrite Hw.
    eexists. reflexivity.
  - eexists. reflexivity.
Qed.

(** X14: an update that stops half-way.  When the write to [#errCode]
    throws, because the page lacks the element or because [error_code] does
    not convert to a string, an answer without a truthy [error] has already
    updated the donut and its centre; the TypeError is caught and shown as a
    communication error, and the bars, the line chart and the other text
    stay as they were, with no request for the logs. *)
Theorem onPredict_text_write_fails (server : request -> reply) (st : page)
  (answer : JS.value) :
  all_filled st = true ->
  server (POST "/predict" (payload_of (inputs st))) = Json answer ->
  readable answer = true ->
  JS.ToBoolean (field "error" answer) = false ->
  JS.convertible (JS.or (field "probability" answer) (JS.VNum 0)) = true ->
  texts st !! "errCode" = None \/ JS.convertible (field "error_code" answer) = false ->
  let st' := run (onPredict server) st in
  let probPercent := probPercent_of (field "probability" answer) in
  outcome (onPredict server) st = Normal tt /\
  (exists msg,
     alerts st'
     = (alerts st ++ ["Communication Error: " +:+ JS.exn_toString (JS.TypeError msg)])%list) /\
  donutChart st'
  = Chart (labels (donutChart st))
          [JS.VNum (100 - probPercent); JS.VNum probPercent]
          (backgroundColor (donutChart st)) /\
  center_text st'
  = (fun _ => JS.Number_toString probPercent +:+ "%") <$> center_text st /\
  texts st' !! "errCode" = texts st !! "errCode" /\
  texts st' !! "errDesc" = texts st !! "errDesc" /\
  barChart st' = barChart st /\
  logsChart st' = logsChart st /\
  requests st' = (requests st ++ [POST "/predict" (payload_of (inputs st))])%list.
Proof.
  intros Hf Hs Hr Hb Hp Hw st' pp. unfold st', outcome, run, pp.
  destruct (onPredict_code_throw_run server st answer Hf Hs Hr Hb Hp Hw) as [msg ->].
  cbn [fst snd alerts requests texts barChart logsChart donutChart].
  split; [reflexivity|]. split; [exists msg; reflexivity|]. split; [reflexivity|].
  split; [apply center_text_center_set|].
  split; [apply lookup_center_set; discriminate|].
  split; [apply lookup_center_set; discriminate|].
  repeat split.
Qed.

Lemma onPredict_text_write_fails_witness :
  let server := serving (Json (prediction 0.42)) two_logs in
  let st := without_text "errCode" (loaded readings) in
  (all_filled st = true /\
   server (POST "/predict" (payload_of (inputs st))) = Json (prediction 0.42) /\
   readable (prediction 0.42) = true /\
   JS.ToBoolean (field "error" (prediction 0.42)) = false /\
   JS.convertible (JS.or (field "probability" (prediction 0.42)) (JS.VNum 0)) = true /\
   (texts st !! "errCode" = None \/
    JS.convertible (field "error_code" (prediction 0.42)) = false)) /\
  data (donutChart (run (onPredict server) st)) = [JS.VNum 58; JS.VNum 42] /\
  barChart (run (onPredict server) st) = barChart st /\
  length (alerts (run (onPredict server) st)) = 1%nat.
Proof.
  intros server st.
  split; [repeat split; left; reflexivity|].
  pose proof (onPredict_text_write_fails server st (prediction 0.42)
                eq_refl eq_refl eq_refl eq_refl eq_refl (or_introl eq_refl))
    as (_ & (msg & Ha) & Hd & _ & _ & _ & Hbar & _).
  split; [rewrite Hd; reflexivity|]. split; [exact Hbar|].
  rewrite Ha. reflexivity.
Defined.

(** The page a prediction leaves when the probability does not convert. *)
Lemma onPredict_probability_throw_run (server : request -> reply) (st : page)
  (answer : JS.value) :
  all_filled st = true ->
  server (POST "/predict" (payload_of (inputs st))) = Json answer ->
  readable answer = true ->
  JS.ToBoolean (field "error" answer) = false ->
  JS.convertible (JS.or (field "probability" answer) (JS.VNum 0)) = false ->
  onPredict server st
  = (Normal tt,
     Page (validated (inputs st)) (texts st) (logsChart st) (donutChart st)
          (barChart st)
          (alerts st ++ ["Communication Error: " +:+ JS.exn_toString JS.not_convertible])
          (console st)
          (requests st ++ [POST "/predict" (payload_of (inputs st))])).
Proof.
  intros Hf Hs Hr Hb Hp.
  rewrite onPredict_filled by exact Hf.
  unfold try_catch. rewrite bind_run. unfold fetch_json at 1. rewrite Hs.
  rewrite on_answer_probability_throw by assumption. reflexivity.
Qed.

(** X21: a probability that does not convert to a Number is reported as
    a communication error.  With the form filled and an answer without a
    truthy [error], the multiplication throws before the donut is written:
    the TypeError is caught and shown in the dialog of the [catch], and the
    three charts and the texts are as they were, with no request for the
    logs. *)
Theorem onPredict_unconvertible_probability (server : request -> reply) (st : page)
  (answer : JS.value) :
  all_filled st = true ->
  server (POST "/predict" (payload_of (inputs st))) = Json answer ->
  readable answer = true ->
  JS.ToBoolean (field "error" answer) = false ->
  JS.convertible (JS.or (field "probability" answer) (JS.VNum 0)) = false ->
  let st' := run (onPredict server) st in
  outcome (onPredict server) st = Normal tt /\
  (exists msg,
     alerts st'
     = (alerts st ++ ["Communication Error: " +:+ JS.exn_toString (JS.TypeError msg)])%list) /\
  charts st' = charts st /\
  texts st' = texts st /\
  requests st' = (requests st ++ [POST "/predict" (payload_of (inputs st))])%list.
Proof.
  intros Hf Hs Hr Hb Hp st'. unfold st', outcome, run.
  rewrite (onPredict_probability_throw_run server st answer Hf Hs Hr Hb Hp).
  cbn [fst snd alerts requests texts charts barChart logsChart donutChart].
  split; [reflexivity|]. split; [eexists; reflexivity|]. repeat split.
Qed.

Lemma onPredict_unconvertible_probability_witness :
  let answer := JS.VObj [("probability", unconvertible)] in
  let server := serving (Json answer) two_logs in
  let st := loaded readings in
  (all_filled st = true /\
   server (POST "/predict" (payload_of (inputs st))) = Json answer /\
   readable answer = true /\
   JS.ToBoolean (field "error" answer) = false /\
   JS.convertible (JS.or (field "probability" answer) (JS.VNum 0)) = false) /\
  charts (run (onPredict server) st) = charts st /\
  length (alerts (run (onPredict server) st)) = 1%nat.
Proof.
  intros answer server st.
  split; [repeat split|].
  pose proof (onPredict_unconvertible_probability server st answer
                eq_refl eq_refl eq_refl eq_refl eq_refl)
    as (_ & (msg & Ha) & Hc & _).
  split; [exact Hc|]. rewrite Ha. reflexivity.
Defined.

(** ** The requests of [onPredict] *)

Lemma at_most_logs_preserves {A} (s : script A) :
  preserves requests s -> at_most_logs s.
Proof. intros H st. left. apply H. Qed.

Lemma at_most_logs_bind {A B} (m : script A) (k : A -> script B) :
  preserves requests m -> (forall a, at_most_logs (k a)) -> at_most_logs (m ≫= k).
Proof.
  intros Hm Hk st. specialize (Hm st). unfold run in *. rewrite bind_run.
  destruct (m st) as [[a|e] st1]; cbn [snd] in *.
  - rewrite <- Hm. apply Hk.
  - left. exact Hm.
Qed.

Lemma at_most_logs_loadLogsChart (server : request -> reply) :
  at_most_logs (loadLogsChart server).
Proof.
  intros st. right. unfold run.
  destruct (loadLogsChart_page server st) as (lines & -> & _). reflexivity.
Qed.

Lemma at_most_logs_on_answer (server : request -> reply)
  (payload : list (string * JS.value)) (answer : JS.value) :
  at_most_logs (on_answer server payload answer).
Proof.
  unfold on_answer.
  apply at_most_logs_bind; [frame|intros err].
  destruct (JS.ToBoolean err); [apply at_most_logs_preserves; frame|].
  apply at_most_logs_bind; [frame|intros probability].
  apply at_most_logs_bind; [frame|intros x].
  apply at_most_logs_bind; [frame|intros st0].
  apply at_most_logs_bind; [frame|intros _].
  apply at_most_logs_bind; [frame|intros _].
  apply at_most_logs_bind; [frame|intros code].
  apply at_most_logs_bind; [frame|intros _].
  apply at_most_logs_bind; [frame|intros desc].
  apply at_most_logs_bind; [frame|intros _].
  apply at_most_logs_bind; [frame|intros _].
  apply at_most_logs_loadLogsChart.
Qed.

(** The requests of a click on a filled form. *)
Lemma onPredict_requests_filled (server : request -> reply) (st : page) :
  all_filled st = true ->
  requests (run (onPredict server) st)
  = (requests st ++ [POST "/predict" (payload_of (inputs st))])%list \/
  requests (run (onPredict server) st)
  = (requests st ++ [POST "/predict" (payload_of (inputs st)); GET "/logs"])%list.
Proof.
  intros Hf.
  assert (E : requests (run (onPredict server) st)
              = requests
                  (run (answer ← fetch_json server
                                   (POST "/predict" (payload_of (inputs st)));
                        on_answer server (payload_of (inputs st)) answer)
                       (with_inputs validated st))).
  { unfold run at 1. rewrite onPredict_filled by exact Hf.
    apply (after_try_catch requests). intros e. frame. }
  rewrite E. unfold run. rewrite bind_run. unfold fetch_json.
  destruct (server (POST "/predict" (payload_of (inputs st)))) as [e|answer].
  - left. reflexivity.
  - destruct (at_most_logs_on_answer server (payload_of (inputs st)) answer
                (asked st)) as [H|H]; unfold run in H.
    + left. exact H.
    + right. cbn [requests asked] in H. rewrite <- app_assoc in H. exact H.
Qed.

(** X15: the requests of one click.  Whatever the page and the server,
    [onPredict] issues no request unless every field is filled; with the
    form filled it posts once to [/predict] the Numbers coerced from the
    fields, and asks for [/logs] at most once, after it. *)
Theorem onPredict_requests (server : request -> reply) (st : page) :
  let st' := run (onPredict server) st in
  let post := POST "/predict" (payload_of (inputs st)) in
  (all_filled st = false /\ requests st' = requests st) \/
  (all_filled st = true /\
   (requests st' = (requests st ++ [post])%list \/
    requests st' = (requests st ++ [post; GET "/logs"])%list)).
Proof.
  intros st' post. unfold st', post. destruct (all_filled st) eqn:Hf.
  - right. split; [reflexivity|]. apply onPredict_requests_filled. exact Hf.
  - left. split; [reflexivity|]. destruct (form_ok st) eqn:Hok.
    + unfold run. rewrite (onPredict_not_filled server st Hok Hf). reflexivity.
    + unfold run, onPredict, validate.
      destruct (forEach_set_border_missing border_reset ids st Hok) as [f Hm].
      rewrite !bind_run, Hm. reflexivity.
Qed.

Lemma trim_left_spaces (l : list ascii) :
  forallb JS.is_space l = true -> JS.trim_left l = [].
Proof.
  induction l as [|c l IH]; cbn [forallb JS.trim_left]; [reflexivity|].
  intros H. apply andb_true_iff in H as [-> Hl]. exact (IH Hl).
Qed.

(** A text of white space only trims to nothing, and [Number] makes it 0. *)
Lemma StringToNumber_blank (s : string) :
  forallb JS.is_space (list_ascii_of_string s) = true -> JS.StringToNumber s = 0%float.
Proof.
  intros H. unfold JS.StringToNumber, JS.trim. now rewrite (trim_left_spaces _ H).
Qed.

(** X16: a field of white space is not an empty field.  A field whose
    text is not empty and holds only white space (of the code units 9 to
    13, 32 and 160) passes the empty check: it gets the reset border, the
    form is posted, and the payload posted carries the Number 0 under the
    name of the field. *)
Theorem onPredict_blank_field (server : request -> reply) (st : page)
  (id : string) (el : input) :
  form_ok st = true ->
  id ∈ ids ->
  inputs st !! id = Some el ->
  blank (input_value el) = true ->
  let st' := run (onPredict server) st in
  inputs st' !! id = Some (Input (input_value el) border_reset) /\
  (all_filled st = true ->
   exists payload later,
     requests st' = (requests st ++ POST "/predict" payload :: later)%list /\
     JS.lookup_prop id payload = JS.VNum 0).
Proof.
  intros Hok Hin Hel Hbl st'. unfold st'.
  apply andb_true_iff in Hbl as [Hne Hsp]. apply negb_true_iff in Hne.
  split.
  - rewrite onPredict_inputs by exact Hok.
    rewrite lookup_validated, decide_True, Hel by exact Hin. cbn.
    unfold styled. now rewrite Hne.
  - intros Hf. exists (payload_of (inputs st)).
    assert (Hp : JS.lookup_prop id (payload_of (inputs st)) = JS.VNum 0).
    { rewrite lookup_payload_of by (rewrite keys_ids; exact Hin).
      rewrite Hel. cbn. now rewrite (StringToNumber_blank _ Hsp). }
    destruct (onPredict_requests_filled server st Hf) as [-> | ->]; eauto.
Qed.

Lemma onPredict_blank_field_witness :
  let server := serving (Json (prediction 0.42)) two_logs in
  let st := loaded ["30"; "  "; "200"; "0.5"; "250"; "5"; "400"; "45"] in
  (form_ok st = true /\
   "pressure" ∈ ids /\
   inputs st !! "pressure" = Some (Input "  " "") /\
   blank "  " = true) /\
  inputs (run (onPredict server) st) !! "pressure" = Some (Input "  " border_reset).
Proof.
  intros server st.
  assert (Hin : "pressure" ∈ ids) by (apply list_elem_of_further, list_elem_of_here).
  split; [repeat split; exact Hin|].
  exact (proj1 (onPredict_blank_field server st "pressure" (Input "  " "")
                  eq_refl Hin eq_refl eq_refl)).
Defined.

(** ** The centre of the donut *)

(** X17: [setDonutCenter] is guarded.  It never fails and never creates
    the element: on a page without [#donutCenter] it does nothing, on a page
    with it only that text changes, and of two calls the last one decides. *)
Theorem setDonutCenter_guarded (text1 text2 : string) (st : page) :
  let st' := run (setDonutCenter text1) st in
  outcome (setDonutCenter text1) st = Normal tt /\
  (center_text st = None -> st' = st) /\
  (forall old, center_text st = Some old -> center_text st' = Some text1) /\
  (forall id, id <> "donutCenter" -> texts st' !! id = texts st !! id) /\
  charts st' = charts st /\
  run (setDonutCenter text2) st' = run (setDonutCenter text2) st.
Proof.
  intros st'. unfold st', outcome, run. rewrite !setDonutCenter_run.
  cbn [fst snd]. unfold center_text, with_texts, center_set. cbn [texts].
  split; [reflexivity|].
  destruct (texts st !! "donutCenter") as [old|] eqn:E.
  - split; [discriminate|]. split; [intros _ _; apply lookup_insert_eq|].
    split; [intros id Hid; apply lookup_insert_ne; congruence|].
    split; [reflexivity|].
    rewrite lookup_insert_eq, insert_insert_eq. reflexivity.
  - split; [intros _; destruct st; reflexivity|]. split; [discriminate|].
    split; [reflexivity|]. split; [reflexivity|]. rewrite E. reflexivity.
Qed.

(** ** The shape of the bars and of the donut *)

Lemma onLoad_run (server : request -> reply) (st : page) :
  onLoad server st
  = loadLogsChart server
      (Page (inputs st) (center_set "0%" (texts st)) (Chart [] [] [])
            (Chart [JS.VStr "Safe"; JS.VStr "Error"] [JS.VNum 100; JS.VNum 0]
                   [green; red])
            (Chart (JS.VStr <$> keys) ((fun _ => JS.VNum 0) <$> keys)
                   ((fun _ => green) <$> keys))
            (alerts st) (console st) (requests st)).
Proof.
  unfold onLoad. rewrite bind_run. unfold set_logsChart at 1.
  rewrite bind_run. unfold set_donutChart at 1.
  rewrite bind_run, setDonutCenter_run. reflexivity.
Qed.

(** The shape depends on the bars and the donut only. *)
Lemma chart_shape_charts (st st' : page) :
  barChart st' = barChart st -> donutChart st' = donutChart st ->
  chart_shape st -> chart_shape st'.
Proof. unfold chart_shape, bar_colors. intros -> ->. tauto. Qed.

Lemma keeps_shape_preserves {A} (m : script A) :
  preserves charts m -> keeps chart_shape m.
Proof.
  intros Hm st H. specialize (Hm st). unfold charts in Hm.
  injection Hm as _ Hd Hb. exact (chart_shape_charts st _ Hb Hd H).
Qed.

Lemma keeps_bind_at {A B} (I : page -> Prop) (m : script A) (k : A -> script B)
  (st : page) :
  I (run m st) -> (forall a, keeps I (k a)) -> I (run (m ≫= k) st).
Proof.
  intros Hm Hk. unfold run in *. rewrite bind_run.
  destruct (m st) as [[a|e] st1]; cbn [snd] in *; [apply Hk|]; exact Hm.
Qed.

Lemma keeps_bind {A B} (I : page -> Prop) (m : script A) (k : A -> script B) :
  keeps I m -> (forall a, keeps I (k a)) -> keeps I (m ≫= k).
Proof. intros Hm Hk st H. apply keeps_bind_at; [apply Hm; exact H|exact Hk]. Qed.

Lemma keeps_try_catch {A} (I : page -> Prop) (body : script A)
  (handler : JS.exn -> script A) :
  keeps I body -> (forall e, keeps I (handler e)) -> keeps I (try_catch body handler).
Proof.
  intros Hb Hh st H. specialize (Hb st H). unfold run, try_catch in *.
  destruct (body st) as [[a|e] st1]; cbn [snd] in *; [exact Hb|apply Hh; exact Hb].
Qed.

Lemma keeps_get_page {B} (I : page -> Prop) (k : page -> script B) :
  (forall st, I st -> I (run (k st) st)) -> keeps I (get_page ≫= k).
Proof. intros H st Hs. unfold run. rewrite bind_run. apply H. exact Hs. Qed.

Lemma color_for_red_green (values : list (string * JS.value)) :
  Forall (fun c => c = red \/ c = green) (color_for values <$> ranges).
Proof.
  apply Forall_fmap, Forall_forall. intros entry _. unfold color_for. cbn.
  destruct (_ || _); eauto.
Qed.

Lemma keeps_shape_loadLogsChart (server : request -> reply) :
  keeps chart_shape (loadLogsChart server).
Proof.
  intros st H. unfold run.
  destruct (loadLogsChart_page server st) as (lines & -> & _).
  exact (chart_shape_charts st _ eq_refl eq_refl H).
Qed.

Lemma keeps_shape_updateBarChart (values : list (string * JS.value)) :
  keeps chart_shape (updateBarChart values).
Proof.
  intros st H. unfold run. rewrite updateBarChart_run.
  unfold chart_shape, bar_colors in *. cbn [snd barChart donutChart labels
                                            data backgroundColor].
  destruct H as (H1 & H2 & H3 & H4 & H5 & H6 & H7).
  repeat split; try assumption. apply color_for_red_green.
Qed.

Lemma keeps_shape_on_answer (server : request -> reply)
  (payload : list (string * JS.value)) (answer : JS.value) :
  keeps chart_shape (on_answer server payload answer).
Proof.
  unfold on_answer.
  apply keeps_bind; [apply keeps_shape_preserves; frame|intros err].
  destruct (JS.ToBoolean err); [apply keeps_shape_preserves; frame|].
  apply keeps_bind; [apply keeps_shape_preserves; frame|intros probability].
  apply keeps_bind; [apply keeps_shape_preserves; frame|intros x].
  apply keeps_get_page. intros st H. apply keeps_bind_at.
  { unfold chart_shape, bar_colors in *. cbn.
    destruct H as (H1 & H2 & H3 & H4 & H5 & H6 & H7).
    repeat split; assumption. }
  intros _.
  apply keeps_bind; [apply keeps_shape_preserves; frame|intros _].
  apply keeps_bind; [apply keeps_shape_preserves; frame|intros code].
  apply keeps_bind; [apply keeps_shape_preserves; frame|intros _].
  apply keeps_bind; [apply keeps_shape_preserves; frame|intros desc].
  apply keeps_bind; [apply keeps_shape_preserves; frame|intros _].
  apply keeps_bind; [apply keeps_shape_updateBarChart|intros _].
  apply keeps_shape_loadLogsChart.
Qed.

Lemma keeps_shape_onPredict (server : request -> reply) :
  keeps chart_shape (onPredict server).
Proof.
  unfold onPredict.
  apply keeps_bind.
  { apply keeps_shape_preserves. unfold validate. apply preserves_bind; [frame|].
    intros _. apply preserves_empty_check; intros; frame. }
  intros allFilled. destruct (negb allFilled); [apply keeps_shape_preserves; frame|].
  apply keeps_bind; [apply keeps_shape_preserves; frame|intros payload].
  apply keeps_try_catch; [|intros e; apply keeps_shape_preserves; frame].
  apply keeps_bind; [apply keeps_shape_preserves; frame|intros answer].
  apply keeps_shape_on_answer.
Qed.

Lemma onLoad_shape (server : request -> reply) (st : page) :
  chart_shape (run (onLoad server) st).
Proof.
  unfold run. rewrite onLoad_run.
  match goal with
  | |- context [loadLogsChart server ?st1] =>
      apply (keeps_shape_loadLogsChart server st1)
  end.
  unfold chart_shape, bar_colors.
  cbn [barChart donutChart labels data backgroundColor].
  repeat split. apply Forall_fmap, Forall_forall. intros key _. right. reflexivity.
Qed.

(** X19: the shape of the bars and of the donut is an invariant of the
    dashboard.  On every page reached from a load by edits of the form and
    clicks on Predict, whatever the servers answer (errors, answers of any
    type, values that do not convert, no answer at all), the bar chart has
    its eight labels with one value and one colour each, every colour red
    or green, and the donut has its two labels, two colours and two
    values. *)
Theorem chart_shape_invariant (st : page) : visited st -> chart_shape st.
Proof.
  induction 1 as [server st|f st _ IH|server st _ IH].
  - apply onLoad_shape.
  - exact IH.
  - apply keeps_shape_onPredict. exact IH.
Qed.

Lemma chart_shape_invariant_witness :
  chart_shape (run (onPredict (serving (Json worded) (Json JS.VNull)))
                   (run (onLoad (serving (Json JS.VNull) two_logs))
                        (page_with readings))).
Proof.
  apply chart_shape_invariant.
  exact (visit_predict (serving (Json worded) (Json JS.VNull)) _
           (visit_load (serving (Json JS.VNull) two_logs) (page_with readings))).
Defined.
